(** * Workflow orchestrator of the event-automation hub

    Shallow embedding of [agents/orchestrator/workflow_orchestrator.py]:
    the [WorkflowState] dataclass, its serialisation [to_dict] and the
    store-load path of [_get_workflow_state], the eight pipeline steps, the
    execution driver [_execute_workflow], and the operations
    [cancel_workflow], [update_workflow_progress] and [regenerate_content]
    over the orchestrator's in-memory [active_workflows] map and the Redis
    store. *)

From Stdlib Require Import ZArith QArith Qround String Ascii.
From stdpp Require Import base gmap strings list pretty.

Open Scope Z_scope.
Open Scope string_scope.
Set Warnings "-register-all -abstract-large-number".

(* ------------------------------------------------------------------ *)
(** ** JSON values

    The values held in the [Dict[str, Any]] fields and in the serialised
    record.  [json.loads (json.dumps x)] is the identity on such values,
    so a stored record is modelled directly as the JSON tree [to_dict]
    produces.  Numbers are the integers the code stores. *)

Inductive Json : Type :=
| JNull
| JBool (b : bool)
| JNum (z : Z)
| JStr (s : string)
| JArr (l : list Json)
| JObj (kvs : list (string * Json)).

(** Python truthiness of a JSON value ([if x:] / [not x]). *)
Definition truthy (j : Json) : bool :=
  match j with
  | JNull => false
  | JBool b => b
  | JNum z => negb (Z.eqb z 0)
  | JStr s => negb (String.eqb s "")
  | JArr l => negb (Nat.eqb (List.length l) 0)
  | JObj kvs => negb (Nat.eqb (List.length kvs) 0)
  end.

(** [d.get(k)]: [None] when the key is absent. *)
Definition dget (d : gmap string Json) (k : string) : Json :=
  default JNull (d !! k).

(** Truthiness of a Python dict. *)
Definition dict_truthy (d : gmap string Json) : bool :=
  negb (bool_decide (d = ∅)).

(** [repr] and [str] of a JSON value, as used inside f-strings. *)
Fixpoint py_repr (j : Json) : string :=
  match j with
  | JNull => "None"
  | JBool b => if b then "True" else "False"
  | JNum z => pretty z
  | JStr s => "'" +:+ s +:+ "'"
  | JArr l =>
      "[" +:+ String.concat ", "
        ((fix go (l : list Json) : list string :=
            match l with [] => [] | x :: r => py_repr x :: go r end) l) +:+ "]"
  | JObj kvs =>
      "{" +:+ String.concat ", "
        ((fix go (l : list (string * Json)) : list string :=
            match l with
            | [] => []
            | (k, v) :: r => ("'" +:+ k +:+ "': " +:+ py_repr v) :: go r
            end) kvs) +:+ "}"
  end.

Definition py_str (j : Json) : string :=
  match j with JStr s => s | _ => py_repr j end.

(** Looking a key up in a dict built by [json.loads]: for a repeated key
    the last occurrence wins. *)
Fixpoint assoc_last (k : string) (kvs : list (string * Json)) : option Json :=
  match kvs with
  | [] => None
  | (k', v) :: r =>
      match assoc_last k r with
      | Some x => Some x
      | None => if String.eqb k k' then Some v else None
      end
  end.

(** A JSON object turned into a Python dict (last occurrence wins). *)
Definition dict_of_obj (kvs : list (string * Json)) : gmap string Json :=
  list_to_map (reverse kvs).

Definition obj_of_dict (d : gmap string Json) : Json :=
  JObj (map_to_list d).

(* ------------------------------------------------------------------ *)
(** ** [WorkflowStatus] *)

Inductive WorkflowStatus : Type :=
| PENDING | IN_PROGRESS | WAITING_APPROVAL | APPROVED
| COMPLETED | FAILED | CANCELLED.

Definition status_eqb (a b : WorkflowStatus) : bool :=
  match a, b with
  | PENDING, PENDING | IN_PROGRESS, IN_PROGRESS
  | WAITING_APPROVAL, WAITING_APPROVAL | APPROVED, APPROVED
  | COMPLETED, COMPLETED | FAILED, FAILED | CANCELLED, CANCELLED => true
  | _, _ => false
  end.

(** [status.value] *)
Definition status_value (s : WorkflowStatus) : string :=
  match s with
  | PENDING => "pending"
  | IN_PROGRESS => "in_progress"
  | WAITING_APPROVAL => "waiting_approval"
  | APPROVED => "approved"
  | COMPLETED => "completed"
  | FAILED => "failed"
  | CANCELLED => "cancelled"
  end.

(** [WorkflowStatus(v)]: [None] where Python raises [ValueError]. *)
Definition parse_status (v : string) : option WorkflowStatus :=
  if String.eqb v "pending" then Some PENDING
  else if String.eqb v "in_progress" then Some IN_PROGRESS
  else if String.eqb v "waiting_approval" then Some WAITING_APPROVAL
  else if String.eqb v "approved" then Some APPROVED
  else if String.eqb v "completed" then Some COMPLETED
  else if String.eqb v "failed" then Some FAILED
  else if String.eqb v "cancelled" then Some CANCELLED
  else None.

(* ------------------------------------------------------------------ *)
(** ** Naive [datetime] values and their ISO text form *)

Record datetime : Type := mkDatetime {
  dt_year : Z; dt_month : Z; dt_day : Z;
  dt_hour : Z; dt_minute : Z; dt_second : Z; dt_microsecond : Z }.

Definition is_leap (y : Z) : bool :=
  (Z.eqb (y mod 4) 0 && negb (Z.eqb (y mod 100) 0)) || Z.eqb (y mod 400) 0.

Definition days_in_month (y m : Z) : Z :=
  if Z.eqb m 2 then (if is_leap y then 29 else 28)
  else if Z.eqb m 4 || Z.eqb m 6 || Z.eqb m 9 || Z.eqb m 11 then 30
  else 31.

(** The range checks of the [datetime] constructor. *)
Definition valid_datetime (d : datetime) : bool :=
  (Z.leb 1 (dt_year d) && Z.leb (dt_year d) 9999 &&
   Z.leb 1 (dt_month d) && Z.leb (dt_month d) 12 &&
   Z.leb 1 (dt_day d) && Z.leb (dt_day d) (days_in_month (dt_year d) (dt_month d)) &&
   Z.leb 0 (dt_hour d) && Z.ltb (dt_hour d) 24 &&
   Z.leb 0 (dt_minute d) && Z.ltb (dt_minute d) 60 &&
   Z.leb 0 (dt_second d) && Z.ltb (dt_second d) 60 &&
   Z.leb 0 (dt_microsecond d) && Z.ltb (dt_microsecond d) 1000000)%Z.

Definition digit_char (d : Z) : ascii := ascii_of_nat (48 + Z.to_nat d)%nat.

Definition digit_val (c : ascii) : option Z :=
  let n := nat_of_ascii c in
  if Nat.leb 48 n && Nat.leb n 57 then Some (Z.of_nat (n - 48)%nat) else None.

(** ['%0kd' % n] for [0 <= n < 10^k]. *)
Fixpoint pad (k : nat) (n : Z) : string :=
  match k with
  | O => ""
  | S k' => pad k' (n / 10) +:+ String (digit_char (n mod 10)) ""
  end.

(** [datetime.isoformat()] of a naive datetime: the fraction is written
    only when [microsecond] is non-zero. *)
Definition isoformat (d : datetime) : string :=
  pad 4 (dt_year d) +:+ String "-"%char (
  pad 2 (dt_month d) +:+ String "-"%char (
  pad 2 (dt_day d) +:+ String "T"%char (
  pad 2 (dt_hour d) +:+ String ":"%char (
  pad 2 (dt_minute d) +:+ String ":"%char (
  pad 2 (dt_second d) +:+
    (if Z.eqb (dt_microsecond d) 0 then ""
     else String "."%char (pad 6 (dt_microsecond d)))))))).

(** Reading exactly [k] decimal digits. *)
Fixpoint read_digits (k : nat) (acc : Z) (s : string) : option (Z * string) :=
  match k with
  | O => Some (acc, s)
  | S k' =>
      match s with
      | EmptyString => None
      | String c s' =>
          match digit_val c with
          | Some d => read_digits k' (acc * 10 + d) s'
          | None => None
          end
      end
  end.

Definition expect (c : ascii) (s : string) : option string :=
  match s with
  | String c' s' => if Ascii.eqb c c' then Some s' else None
  | EmptyString => None
  end.

(** The time part [HH:MM:SS[.ffffff|.fff]] accepted by
    [datetime.fromisoformat]; a time-zone suffix (which would make the
    value aware) is not accepted. *)
Definition parse_time (t : string) : option (Z * Z * Z * Z) :=
  '(h, t) ← read_digits 2 0 t;
  t ← expect ":"%char t;
  '(mi, t) ← read_digits 2 0 t;
  t ← expect ":"%char t;
  '(sec, t) ← read_digits 2 0 t;
  match t with
  | EmptyString => Some (h, mi, sec, 0)
  | String c f =>
      if Ascii.eqb c "."%char then
        match read_digits 6 0 f with
        | Some (us, EmptyString) => Some (h, mi, sec, us)
        | _ =>
            match read_digits 3 0 f with
            | Some (ms, EmptyString) => Some (h, mi, sec, ms * 1000)
            | _ => None
            end
        end
      else None
  end.

(** [datetime.fromisoformat(s)]: [YYYY-MM-DD], optionally followed by any
    separator character and a time part; [None] where Python raises. *)
Definition fromisoformat (s : string) : option datetime :=
  '(y, s) ← read_digits 4 0 s;
  s ← expect "-"%char s;
  '(mo, s) ← read_digits 2 0 s;
  s ← expect "-"%char s;
  '(d, s) ← read_digits 2 0 s;
  '(h, mi, sec, us) ←
    match s with
    | EmptyString => Some (0, 0, 0, 0)
    | String _ t => parse_time t
    end;
  let r := mkDatetime y mo d h mi sec us in
  if valid_datetime r then Some r else None.

(* ------------------------------------------------------------------ *)
(** ** [WorkflowState] *)

(** The LangChain messages kept for LLM context. *)
Inductive Message : Type :=
| HumanMessage (content : string)
| AIMessage (content : string).

Record WorkflowState : Type := mkWorkflowState {
  session_id : string;
  event_id : string;
  status : WorkflowStatus;
  current_step : string;
  completed_steps : list string;
  failed_steps : list string;
  event_data : gmap string Json;
  content_preferences : gmap string Json;
  user_info : gmap string Json;
  generated_content : gmap string Json;
  start_time : datetime;
  estimated_completion : option datetime;
  error_message : option string;
  messages : list Message }.

(** Attribute assignments [state.f = v]. *)
Definition set_status (v : WorkflowStatus) (s : WorkflowState) : WorkflowState :=
  mkWorkflowState (session_id s) (event_id s) v (current_step s)
    (completed_steps s) (failed_steps s) (event_data s) (content_preferences s)
    (user_info s) (generated_content s) (start_time s) (estimated_completion s)
    (error_message s) (messages s).

Definition set_current_step (v : string) (s : WorkflowState) : WorkflowState :=
  mkWorkflowState (session_id s) (event_id s) (status s) v
    (completed_steps s) (failed_steps s) (event_data s) (content_preferences s)
    (user_info s) (generated_content s) (start_time s) (estimated_completion s)
    (error_message s) (messages s).

Definition set_completed_steps (v : list string) (s : WorkflowState) : WorkflowState :=
  mkWorkflowState (session_id s) (event_id s) (status s) (current_step s)
    v (failed_steps s) (event_data s) (content_preferences s)
    (user_info s) (generated_content s) (start_time s) (estimated_completion s)
    (error_message s) (messages s).

Definition set_failed_steps (v : list string) (s : WorkflowState) : WorkflowState :=
  mkWorkflowState (session_id s) (event_id s) (status s) (current_step s)
    (completed_steps s) v (event_data s) (content_preferences s)
    (user_info s) (generated_content s) (start_time s) (estimated_completion s)
    (error_message s) (messages s).

Definition set_content_preferences (v : gmap string Json) (s : WorkflowState) : WorkflowState :=
  mkWorkflowState (session_id s) (event_id s) (status s) (current_step s)
    (completed_steps s) (failed_steps s) (event_data s) v
    (user_info s) (generated_content s) (start_time s) (estimated_completion s)
    (error_message s) (messages s).

Definition set_generated_content (v : gmap string Json) (s : WorkflowState) : WorkflowState :=
  mkWorkflowState (session_id s) (event_id s) (status s) (current_step s)
    (completed_steps s) (failed_steps s) (event_data s) (content_preferences s)
    (user_info s) v (start_time s) (estimated_completion s)
    (error_message s) (messages s).

Definition set_error_message (v : option string) (s : WorkflowState) : WorkflowState :=
  mkWorkflowState (session_id s) (event_id s) (status s) (current_step s)
    (completed_steps s) (failed_steps s) (event_data s) (content_preferences s)
    (user_info s) (generated_content s) (start_time s) (estimated_completion s)
    v (messages s).

Definition set_messages (v : list Message) (s : WorkflowState) : WorkflowState :=
  mkWorkflowState (session_id s) (event_id s) (status s) (current_step s)
    (completed_steps s) (failed_steps s) (event_data s) (content_preferences s)
    (user_info s) (generated_content s) (start_time s) (estimated_completion s)
    (error_message s) v.

(** [state.completed_steps.append(n)] and friends. *)
Definition append_completed (n : string) (s : WorkflowState) : WorkflowState :=
  set_completed_steps (completed_steps s ++ [n]) s.
Definition append_failed (n : string) (s : WorkflowState) : WorkflowState :=
  set_failed_steps (failed_steps s ++ [n]) s.
Definition append_message (m : Message) (s : WorkflowState) : WorkflowState :=
  set_messages (messages s ++ [m]) s.
(** [state.generated_content[k] = v] *)
Definition put_content (k : string) (v : Json) (s : WorkflowState) : WorkflowState :=
  set_generated_content (<[k := v]> (generated_content s)) s.

(** [total_steps = 8] *)
Definition total_steps : Z := 8.

(** [calculate_progress]: [min(int((completed / total_steps) * 100), 100)].
    The quotient by 8 and the product by 100 are exact in binary floating
    point for every list length, so the float computation is the rational
    one, and [int] of a non-negative value is its floor. *)
Definition calculate_progress (s : WorkflowState) : Z :=
  Z.min (Qfloor (inject_Z (Z.of_nat (length (completed_steps s))) / inject_Z total_steps
                 * inject_Z 100)) 100.

(** [to_dict] *)
Definition opt_json {A} (f : A -> Json) (o : option A) : Json :=
  match o with Some x => f x | None => JNull end.

Definition to_dict (s : WorkflowState) : Json :=
  JObj [("session_id", JStr (session_id s));
        ("event_id", JStr (event_id s));
        ("status", JStr (status_value (status s)));
        ("current_step", JStr (current_step s));
        ("completed_steps", JArr (map JStr (completed_steps s)));
        ("failed_steps", JArr (map JStr (failed_steps s)));
        ("event_data", obj_of_dict (event_data s));
        ("content_preferences", obj_of_dict (content_preferences s));
        ("user_info", obj_of_dict (user_info s));
        ("generated_content", obj_of_dict (generated_content s));
        ("start_time", JStr (isoformat (start_time s)));
        ("estimated_completion", opt_json (fun d => JStr (isoformat d)) (estimated_completion s));
        ("error_message", opt_json JStr (error_message s));
        ("progress_percentage", JNum (calculate_progress s))].

(* ------------------------------------------------------------------ *)
(** ** The store-load path of [_get_workflow_state]

    [WorkflowState(session_id=data['session_id'], ...)] built from the
    parsed record.  [None] where Python raises (a missing key, a bad status
    value, an unparsable timestamp), which [_get_workflow_state] turns into
    [None].  A field of the wrong JSON type, which Python would copy into
    the dataclass unchecked, is also read as [None] in this typed model. *)

Definition json_str (j : Json) : option string :=
  match j with JStr s => Some s | _ => None end.

Definition json_str_list (j : Json) : option (list string) :=
  match j with JArr l => mapM json_str l | _ => None end.

Definition json_dict (j : Json) : option (gmap string Json) :=
  match j with JObj kvs => Some (dict_of_obj kvs) | _ => None end.

(** Option bind, the [try]/[except] of the load path. *)
Definition obind {A B : Type} (m : option A) (f : A -> option B) : option B :=
  match m with Some a => f a | None => None end.

Notation "'let?' x := m 'in' k" := (obind m (fun x => k))
  (at level 200, x name, m at level 100, k at level 200).

Definition load_state (v : Json) : option WorkflowState :=
  match v with
  | JObj data =>
      let? sid := obind (assoc_last "session_id" data) json_str in
      let? eid := obind (assoc_last "event_id" data) json_str in
      let? sv := obind (assoc_last "status" data) json_str in
      let? st := parse_status sv in
      let? cur := obind (assoc_last "current_step" data) json_str in
      let? cs := obind (assoc_last "completed_steps" data) json_str_list in
      let? fs := obind (assoc_last "failed_steps" data) json_str_list in
      let? ed := obind (assoc_last "event_data" data) json_dict in
      let? cp := obind (assoc_last "content_preferences" data) json_dict in
      let? ui := obind (assoc_last "user_info" data) json_dict in
      let? gc := obind (assoc_last "generated_content" data) json_dict in
      let? ts := obind (assoc_last "start_time" data) json_str in
      let? t0 := fromisoformat ts in
      let? eta_j := assoc_last "estimated_completion" data in
      let? eta :=
        (if truthy eta_j
         then (let? s := json_str eta_j in
               let? d := fromisoformat s in Some (Some d))
         else Some None) in
      (* [data.get('error_message')] *)
      let? em :=
        match assoc_last "error_message" data with
        | None | Some JNull => Some None
        | Some (JStr s) => Some (Some s)
        | Some _ => None
        end in
      Some (mkWorkflowState sid eid st cur cs fs ed cp ui gc t0 eta em
              [] (* messages are not persisted *))
  | _ => None
  end.

(* ------------------------------------------------------------------ *)
(** ** The orchestrator: the [active_workflows] map and the Redis store

    Store reads and writes are modelled as succeeding.  The notification
    [_notify_backend] never reaches its POST: its first line reads
    [self.settings.backend_callback_url], a field the pydantic [Settings]
    class of [utils/config.py] does not declare, so every call raises
    [AttributeError] outside the method's [try]. *)

Record Orchestrator : Type := mkOrchestrator {
  active_workflows : gmap string WorkflowState;
  redis : gmap string Json }.

Definition redis_key (sid : string) : string := "uis:workflow:" +:+ sid.

(** [_store_workflow_state]: [setex(key, 86400, json.dumps(state.to_dict()))]. *)
Definition store_workflow_state (st : WorkflowState) (o : Orchestrator) : Orchestrator :=
  mkOrchestrator (active_workflows o)
    (<[redis_key (session_id st) := to_dict st]> (redis o)).

Definition set_active (sid : string) (st : WorkflowState) (o : Orchestrator) : Orchestrator :=
  mkOrchestrator (<[sid := st]> (active_workflows o)) (redis o).

Definition del_active (sid : string) (o : Orchestrator) : Orchestrator :=
  mkOrchestrator (delete sid (active_workflows o)) (redis o).

(** [_get_workflow_state]: memory first, then Redis. *)
Definition get_workflow_state (o : Orchestrator) (sid : string) : option WorkflowState :=
  match active_workflows o !! sid with
  | Some st => Some st
  | None => obind (redis o !! redis_key sid) load_state
  end.

(* ------------------------------------------------------------------ *)
(** ** Collaborators and pipeline steps *)

(** What an agent call does: return its result dict, or raise. *)
Inductive Outcome : Type :=
| Returned (r : gmap string Json)
| Raised (msg : string).

(** The agents the steps call ([self.flyer_agent.generate_flyer], ...). *)
Record Agents : Type := mkAgents {
  generate_flyer : gmap string Json -> gmap string Json -> Outcome;
  generate_content : gmap string Json -> gmap string Json -> Json -> Outcome;
  generate_message : gmap string Json -> gmap string Json -> Outcome;
  setup_event_folder : gmap string Json -> gmap string Json -> Outcome }.

(** A node returns the state, or raises with the state as mutated so far
    (the state object is shared, so the caller sees those mutations). *)
Inductive StepResult : Type :=
| Ok (st : WorkflowState)
| Exc (st : WorkflowState) (msg : string).

(** [state.error_message + suffix if state.error_message else whole] *)
Definition extend_error (em : option string) (suffix whole : string) : option string :=
  match em with
  | Some m => if String.eqb m "" then Some whole else Some (m +:+ suffix)
  | None => Some whole
  end.

(** [_validate_input] *)
Definition required_event_fields : list string := ["title"; "description"; "start_date"].

Definition validation_failed (msg : string) (st : WorkflowState) : StepResult :=
  Exc (set_error_message (Some msg) (append_failed "validate_input" st)) msg.

Definition validate_input (st0 : WorkflowState) : StepResult :=
  let st := set_current_step "validate_input" st0 in
  let missing_fields :=
    filter (fun f => negb (truthy (dget (event_data st) f))) required_event_fields in
  match missing_fields with
  | _ :: _ =>
      validation_failed
        ("Missing required event data fields: " +:+ String.concat ", " missing_fields) st
  | [] =>
      if negb (dict_truthy (content_preferences st)) then
        validation_failed "Content preferences are missing or not a valid structure." st
      else
        let prefs := content_preferences st in
        let prefs := if truthy (dget prefs "flyer_style") then prefs
                     else <["flyer_style" := JStr "professional"]> prefs in
        Ok (append_completed "validate_input"
              (append_message (AIMessage "Input validation completed successfully.")
                 (set_content_preferences prefs st)))
  end.

(** [_create_flyer] *)
Definition create_flyer (C : Agents) (st0 : WorkflowState) : WorkflowState :=
  let st := set_current_step "create_flyer" st0 in
  match generate_flyer C (event_data st) (content_preferences st) with
  | Raised e =>
      set_error_message
        (extend_error (error_message st) ("; Flyer creation error: " +:+ e) e)
        (append_failed "create_flyer" st)
  | Returned r =>
      if truthy (dget r "error") then
        append_message
          (AIMessage ("Flyer creation encountered an issue: " +:+ py_str (dget r "error")))
          (append_failed "create_flyer" (put_content "flyer_error" (dget r "error") st))
      else
        append_completed "create_flyer"
          (append_message (AIMessage ("Flyer created: " +:+ py_str (dget r "flyer_url")))
             (put_content "design_notes" (dget r "design_notes")
               (put_content "flyer_format" (dget r "flyer_format")
                 (put_content "flyer_template_id" (dget r "flyer_template_id")
                   (put_content "flyer_render_id" (dget r "flyer_render_id")
                     (put_content "flyer_url" (dget r "flyer_url") st))))))
  end.

(** [_create_social_content] *)
Definition create_social_content (C : Agents) (st0 : WorkflowState) : WorkflowState :=
  let st := set_current_step "create_social_content" st0 in
  let flyer_url := dget (generated_content st) "flyer_url" in
  if negb (truthy flyer_url) then
    append_message (AIMessage "Social media captions skipped: Flyer URL not available.")
      (put_content "social_media_error"
         (JStr "Flyer URL missing, cannot generate social media captions.")
         (append_failed "create_social_content" st))
  else
    match generate_content C (event_data st) (content_preferences st) flyer_url with
    | Raised e =>
        let error_msg := "Social media caption generation error: " +:+ e in
        append_message (AIMessage error_msg)
          (set_error_message (extend_error (error_message st) ("; " +:+ error_msg) error_msg)
            (put_content "social_media_error" (JStr error_msg)
               (append_failed "create_social_content" st)))
    | Returned r =>
        let st1 :=
          put_content "twitter_caption" (dget r "twitter_caption")
            (put_content "linkedin_caption" (dget r "linkedin_caption")
               (put_content "instagram_caption" (dget r "instagram_caption") st)) in
        if truthy (dget r "social_media_error") then
          append_message
            (AIMessage ("Social media caption generation encountered issues: "
                        +:+ py_str (dget r "social_media_error")))
            (append_failed "create_social_content"
               (put_content "social_media_error" (dget r "social_media_error") st1))
        else
          append_completed "create_social_content"
            (append_message (AIMessage "Social media captions generated.") st1)
    end.

(** [whatsapp_text[:100]] inside the log f-string: the [TypeError] it raises
    when the text is not a sequence. *)
Definition slice_error (j : Json) : option string :=
  match j with
  | JNull => Some "'NoneType' object is not subscriptable"
  | JBool _ => Some "'bool' object is not subscriptable"
  | JNum _ => Some "'int' object is not subscriptable"
  | JObj _ => Some "unhashable type: 'slice'"
  | JStr _ | JArr _ => None
  end.

(** The [except Exception] branch of [_create_whatsapp_message]. *)
Definition whatsapp_exception (e : string) (st : WorkflowState) : WorkflowState :=
  let error_msg := "WhatsApp message creation error: " +:+ e in
  append_message (AIMessage error_msg)
    (set_error_message (extend_error (error_message st) ("; " +:+ error_msg) error_msg)
       (put_content "whatsapp_message_error" (JStr error_msg)
          (append_failed "create_whatsapp_message" st))).

(** [_create_whatsapp_message] *)
Definition create_whatsapp_message (C : Agents) (st0 : WorkflowState) : WorkflowState :=
  let st := set_current_step "create_whatsapp_message" st0 in
  match generate_message C (event_data st) (content_preferences st) with
  | Raised e => whatsapp_exception e st
  | Returned r =>
      if truthy (dget r "error") then
        append_message
          (AIMessage ("WhatsApp message creation encountered an issue: "
                      +:+ py_str (dget r "error")))
          (append_failed "create_whatsapp_message"
             (put_content "whatsapp_message_error" (dget r "error") st))
      else
        let whatsapp_text := dget r "whatsapp_message_text" in
        let st1 := put_content "whatsapp_message" whatsapp_text st in
        match slice_error whatsapp_text with
        | Some te => whatsapp_exception te st1
        | None =>
            append_completed "create_whatsapp_message"
              (append_message (AIMessage "WhatsApp message generated.") st1)
        end
  end.

(** [_setup_google_drive] *)
Definition setup_google_drive (C : Agents) (st0 : WorkflowState) : WorkflowState :=
  let st := set_current_step "setup_google_drive" st0 in
  match setup_event_folder C (event_data st) (generated_content st) with
  | Raised e =>
      let error_msg := "Google Drive setup error: " +:+ e in
      append_message (AIMessage error_msg)
        (set_error_message (extend_error (error_message st) ("; " +:+ error_msg) error_msg)
           (append_failed "setup_google_drive" st))
  | Returned r =>
      if truthy (dget r "error") then
        append_message
          (AIMessage ("Google Drive setup encountered an issue: " +:+ py_str (dget r "error")))
          (append_failed "setup_google_drive" st)
      else
        append_message (AIMessage "Google Drive folder and assets setup successfully.")
          (append_completed "setup_google_drive"
             (put_content "google_drive_folder_url" (dget r "folder_url")
                (put_content "google_drive_folder_id" (dget r "folder_id") st)))
  end.

(** [_create_calendar_event] (placeholder) *)
Definition create_calendar_event (st : WorkflowState) : WorkflowState :=
  append_completed "create_calendar_event" (set_current_step "create_calendar_event" st).

(** [_create_clickup_task] (placeholder) *)
Definition create_clickup_task (st : WorkflowState) : WorkflowState :=
  append_completed "create_clickup_task" (set_current_step "create_clickup_task" st).

(** [_finalize_workflow] *)
Definition finalize_workflow (st : WorkflowState) : WorkflowState :=
  append_completed "finalize_workflow"
    (set_status COMPLETED (set_current_step "finalize_workflow" st)).

(* ------------------------------------------------------------------ *)
(** ** The graph and [_execute_workflow] *)

(** The nodes of [_build_workflow_graph], in edge order from the entry
    point [validate_input] to [END]. *)
Definition step_registry (C : Agents) : list (string * (WorkflowState -> StepResult)) :=
  [("validate_input", validate_input);
   ("create_flyer", fun st => Ok (create_flyer C st));
   ("create_social_content", fun st => Ok (create_social_content C st));
   ("create_whatsapp_message", fun st => Ok (create_whatsapp_message C st));
   ("setup_google_drive", fun st => Ok (setup_google_drive C st));
   ("create_calendar_event", fun st => Ok (create_calendar_event st));
   ("create_clickup_task", fun st => Ok (create_clickup_task st));
   ("finalize_workflow", fun st => Ok (finalize_workflow st))].

(** [workflow_graph.ainvoke(state)]: the nodes in sequence on the shared
    state; an exception stops the graph and propagates. *)
Fixpoint run_steps (steps : list (string * (WorkflowState -> StepResult)))
    (st : WorkflowState) : StepResult :=
  match steps with
  | [] => Ok st
  | (_, f) :: rest =>
      match f st with
      | Ok st' => run_steps rest st'
      | Exc st' m => Exc st' m
      end
  end.

(** The [finally] clause of [_execute_workflow]. *)
Definition evict_if_terminal (st : WorkflowState) (o : Orchestrator) : Orchestrator :=
  if bool_decide (is_Some (active_workflows o !! session_id st)) &&
     (status_eqb (status st) COMPLETED || status_eqb (status st) FAILED)
  then del_active (session_id st) o
  else o.

(** The message of the [AttributeError] every [_notify_backend] call raises. *)
Definition notify_backend_error : string :=
  "'Settings' object has no attribute 'backend_callback_url'".

(** The original [state] object after [workflow_graph.ainvoke(state)], the
    graph having stopped at [fin].  The nodes run on copies built from the
    graph's channels: the copies share the original's lists and dicts,
    which the nodes mutate in place ([append], item assignment), but the
    nodes' rebinding of [current_step], [status] and [error_message] stays
    on the copies. *)
Definition graph_writeback (st fin : WorkflowState) : WorkflowState :=
  set_messages (messages fin)
    (set_generated_content (generated_content fin)
       (set_content_preferences (content_preferences fin)
          (set_failed_steps (failed_steps fin)
             (set_completed_steps (completed_steps fin) st)))).

(** A mutation of the run's state object seen through [active_workflows]:
    the entry under the run's id is that object itself. *)
Definition alias_active (st : WorkflowState) (o : Orchestrator) : Orchestrator :=
  if bool_decide (is_Some (active_workflows o !! session_id st))
  then set_active (session_id st) st o else o.

(** [_execute_workflow]: returns the original state object, as the task
    leaves it, and the orchestrator.  [ainvoke] returns the channel values
    as a dict, so the original object is marked completed and stored; the
    [_notify_backend] call that follows raises, the [except] branch marks
    the object failed and stores it, its own [_notify_backend] raises again
    and the [finally] clause runs; the task then ends with that exception,
    which nothing awaits. *)
Definition execute_workflow (C : Agents) (st : WorkflowState) (o : Orchestrator)
    : WorkflowState * Orchestrator :=
  match run_steps (step_registry C) st with
  | Ok fin =>
      let current_session_id :=
        if String.eqb (session_id fin) "" then session_id st else session_id fin in
      let state := set_current_step "completed"
                     (set_status COMPLETED (graph_writeback st fin)) in
      let o := store_workflow_state state o in
      let o := set_active current_session_id state o in
      (* [await self._notify_backend(...)] raises: the [except] branch *)
      let state := set_current_step "error"
                     (set_error_message (Some notify_backend_error)
                        (set_status FAILED state)) in
      let o := alias_active state (store_workflow_state state o) in
      (state, evict_if_terminal state o)
  | Exc st' e =>
      let state := set_current_step "error"
                     (set_error_message (Some e)
                        (set_status FAILED (graph_writeback st st'))) in
      let o := alias_active state (store_workflow_state state o) in
      (state, evict_if_terminal state o)
  end.

(** [start_workflow]: [now] and [eta] are the clock readings
    [datetime.utcnow()] and [datetime.utcnow() + timedelta(minutes=3)]. *)
Definition start_workflow (o : Orchestrator) (sid eid : string)
    (ed prefs ui : gmap string Json) (now eta : datetime) : WorkflowState * Orchestrator :=
  let title := default (JStr "Untitled Event") (ed !! "title") in
  let st := mkWorkflowState sid eid IN_PROGRESS "validate_input" [] [] ed prefs ui ∅
              now (Some eta) None
              [HumanMessage ("Create promotional content for event: " +:+ py_str title)] in
  let o := set_active sid st o in
  (st, store_workflow_state st o).

(** A run: [start_workflow] followed by its task [_execute_workflow]. *)
Definition start_and_run (C : Agents) (o : Orchestrator) (sid eid : string)
    (ed prefs ui : gmap string Json) (now eta : datetime) : WorkflowState * Orchestrator :=
  let '(st, o) := start_workflow o sid eid ed prefs ui now eta in
  execute_workflow C st o.

(* ------------------------------------------------------------------ *)
(** ** [cancel_workflow], [update_workflow_progress], [regenerate_content] *)

Definition cancel_workflow (o : Orchestrator) (sid : string) : bool * Orchestrator :=
  match get_workflow_state o sid with
  | Some st =>
      if status_eqb (status st) IN_PROGRESS then
        let st := set_current_step "cancelled" (set_status CANCELLED st) in
        let o := store_workflow_state st o in
        (true, del_active sid o)
      else (false, o)
  | None => (false, o)
  end.

(** Optional arguments are [None] when not passed; each [if x:] tests
    Python truthiness. *)
Definition update_workflow_progress (o : Orchestrator) (sid : string)
    (status_v : string) (cur : string) (cs fs : option (list string))
    (em : option string) (gc : option (gmap string Json)) : Orchestrator :=
  match get_workflow_state o sid with
  | None => o
  | Some st =>
      match parse_status status_v with
      | None => o (* [ValueError] from [WorkflowStatus(status)], caught *)
      | Some s =>
          let st := set_current_step cur (set_status s st) in
          let st := match cs with Some ((_ :: _) as l) => set_completed_steps l st | _ => st end in
          let st := match fs with Some ((_ :: _) as l) => set_failed_steps l st | _ => st end in
          let st := match em with
                    | Some m => if String.eqb m "" then st else set_error_message (Some m) st
                    | None => st
                    end in
          let st := match gc with
                    | Some g => if dict_truthy g
                                then set_generated_content (g ∪ generated_content st) st
                                else st
                    | None => st
                    end in
          set_active sid st (store_workflow_state st o)
      end
  end.

(** [regenerate_content]: [inl msg] is the [ValueError] raised when the
    session is not found.  The steps, called directly on the state object,
    catch their own exceptions; the [_notify_backend] call after the store
    raises [AttributeError], so the [except] branch marks the object failed
    with that message and stores it again.  The object stays in
    [active_workflows], where the mutation shows; the [except] branch does
    not re-raise. *)
Definition regenerate_content (C : Agents) (o : Orchestrator) (sid eid : string)
    (regeneration_type : string) (prefs : gmap string Json)
    : string + (WorkflowState * Orchestrator) :=
  match get_workflow_state o sid with
  | None => inl ("Workflow session " +:+ sid +:+ " not found")
  | Some st =>
      let st := set_status IN_PROGRESS
                  (set_content_preferences (prefs ∪ content_preferences st) st) in
      let is t := String.eqb regeneration_type t || String.eqb regeneration_type "all" in
      let st := if is "flyer" then create_flyer C st else st in
      let st := if is "social" then create_social_content C st else st in
      let st := if is "whatsapp" then create_whatsapp_message C st else st in
      let st := set_current_step ("regenerated_" +:+ regeneration_type)
                  (set_status COMPLETED st) in
      let o := store_workflow_state st o in
      let o := set_active sid st o in
      (* [await self._notify_backend(state)] raises: the [except] branch *)
      let st := set_error_message (Some notify_backend_error) (set_status FAILED st) in
      let o := store_workflow_state st o in
      inr (st, set_active sid st o)
  end.

(* ------------------------------------------------------------------ *)
(** ** Vocabulary of the properties *)

(** The message of the exception a node raised, if any. *)
Definition step_exception (r : StepResult) : option string :=
  match r with Exc _ m => Some m | Ok _ => None end.

(** The state a node leaves behind, whether it returned or raised. *)
Definition step_state (r : StepResult) : WorkflowState :=
  match r with Ok st | Exc st _ => st end.

(** The node registered under a name. *)
Fixpoint find_step (name : string) (steps : list (string * (WorkflowState -> StepResult)))
    : option (WorkflowState -> StepResult) :=
  match steps with
  | [] => None
  | (n, f) :: rest => if String.eqb n name then Some f else find_step name rest
  end.

Definition step_of (C : Agents) (name : string) : option (WorkflowState -> StepResult) :=
  find_step name (step_registry C).

(** Whether the work of a node fails on a state: its agent raises or
    returns an error, or the node's own code raises inside its [try]. *)
Definition step_fails (C : Agents) (name : string) (st : WorkflowState) : bool :=
  if String.eqb name "create_flyer" then
    match generate_flyer C (event_data st) (content_preferences st) with
    | Raised _ => true
    | Returned r => truthy (dget r "error")
    end
  else if String.eqb name "create_social_content" then
    let flyer_url := dget (generated_content st) "flyer_url" in
    negb (truthy flyer_url) ||
    match generate_content C (event_data st) (content_preferences st) flyer_url with
    | Raised _ => true
    | Returned r => truthy (dget r "social_media_error")
    end
  else if String.eqb name "create_whatsapp_message" then
    match generate_message C (event_data st) (content_preferences st) with
    | Raised _ => true
    | Returned r =>
        truthy (dget r "error") ||
        bool_decide (is_Some (slice_error (dget r "whatsapp_message_text")))
    end
  else if String.eqb name "setup_google_drive" then
    match setup_event_folder C (event_data st) (generated_content st) with
    | Raised _ => true
    | Returned r => truthy (dget r "error")
    end
  else false.

(** What a failed best-effort node leaves unchanged and what it records. *)
Definition failed_frame (name : string) (st st' : WorkflowState) : Prop :=
  failed_steps st' = (failed_steps st ++ [name])%list /\
  completed_steps st' = completed_steps st /\
  status st' = status st /\
  current_step st' = name /\
  session_id st' = session_id st /\
  event_id st' = event_id st /\
  event_data st' = event_data st /\
  content_preferences st' = content_preferences st /\
  user_info st' = user_info st /\
  start_time st' = start_time st /\
  estimated_completion st' = estimated_completion st.

Definition opt_valid_datetime (o : option datetime) : bool :=
  match o with Some d => valid_datetime d | None => true end.

(** The artifact keys each regenerable node writes. *)
Definition flyer_keys : list string :=
  ["flyer_url"; "flyer_render_id"; "flyer_template_id"; "flyer_format";
   "design_notes"; "flyer_error"].
Definition social_keys : list string :=
  ["instagram_caption"; "linkedin_caption"; "twitter_caption"; "social_media_error"].
Definition whatsapp_keys : list string :=
  ["whatsapp_message"; "whatsapp_message_error"].

Definition owned_keys (regeneration_type : string) : list string :=
  (if String.eqb regeneration_type "flyer" || String.eqb regeneration_type "all"
   then flyer_keys else []) ++
  (if String.eqb regeneration_type "social" || String.eqb regeneration_type "all"
   then social_keys else []) ++
  (if String.eqb regeneration_type "whatsapp" || String.eqb regeneration_type "all"
   then whatsapp_keys else []).

(** The state found under a session id carries that id. *)
Definition session_consistent (o : Orchestrator) (sid : string) : bool :=
  match get_workflow_state o sid with
  | Some st => String.eqb (session_id st) sid
  | None => true
  end.

(** [completed_steps] of [st'] extends that of [st]. *)
Definition completed_extends (st st' : WorkflowState) : Prop :=
  exists l, completed_steps st' = (completed_steps st ++ l)%list.

(* ------------------------------------------------------------------ *)
(** ** Status query, shutdown and the progress webhook *)

(** [get_workflow_status]: a [WorkflowState] object is always truthy. *)
Definition get_workflow_status (o : Orchestrator) (sid : string) : option Json :=
  match get_workflow_state o sid with
  | Some st => Some (to_dict st)
  | None => None
  end.

(** The orchestrator part of [cleanup]: [cancel_workflow] on every key of
    [list(self.active_workflows.keys())], listed by [ks] in the dict's
    order.  The agents' own [cleanup] hooks touch neither map. *)
Definition cleanup (ks : list string) (o : Orchestrator) : Orchestrator :=
  fold_left (fun o sid => snd (cancel_workflow o sid)) ks o.

(** The [/webhook/workflow-update] endpoint of [agents/main.py] (with the
    orchestrator initialised): the list parameters default to [[]], the
    others to [None]; [update_workflow_progress] swallows its own errors,
    so the endpoint always answers with the success object. *)
Definition webhook_response : Json :=
  JObj [("success", JBool true); ("message", JStr "Workflow updated")].

Definition workflow_update_webhook (o : Orchestrator) (sid status_v cur : string)
    (cs fs : list string) (em : option string) (gc : option (gmap string Json))
    : Json * Orchestrator :=
  (webhook_response,
   update_workflow_progress o sid status_v cur (Some cs) (Some fs) em gc).

(* ------------------------------------------------------------------ *)
(** ** Text helpers of the content agents

    [SocialMediaAgent._truncate_content] and
    [WhatsAppAgent._truncate_message].  A Python [str] is a sequence of
    code points. *)

Abbreviation pystr := (list Z) (only parsing).

Definition py_len (s : pystr) : Z := Z.of_nat (length s).

(** [s[:n]] *)
Definition py_slice_to (s : pystr) (n : Z) : pystr :=
  if Z.leb 0 n then take (Z.to_nat n) s else take (Z.to_nat (py_len s + n)) s.

(** [s.rfind(c)] for a one-character [c]: the last index of [c], or [-1]. *)
Fixpoint py_rfind (s : pystr) (c : Z) : Z :=
  match s with
  | [] => -1
  | x :: r =>
      let k := py_rfind r c in
      if Z.leb 0 k then k + 1 else if Z.eqb x c then 0 else -1
  end.

(** [s.split(sep)] for a one-character [sep]. *)
Fixpoint py_split (sep : Z) (s : pystr) : list pystr :=
  match s with
  | [] => [[]]
  | c :: r =>
      let parts := py_split sep r in
      if Z.eqb c sep then [] :: parts
      else match parts with
           | p :: ps => (c :: p) :: ps
           | [] => [[c]]
           end
  end.

(** [sep.join(parts)] *)
Fixpoint py_join (sep : Z) (parts : list pystr) : pystr :=
  match parts with
  | [] => []
  | [p] => p
  | p :: ps => (p ++ sep :: py_join sep ps)%list
  end.

Definition codes (s : string) : pystr :=
  map (fun a => Z.of_nat (nat_of_ascii a)) (list_ascii_of_string s).

Definition space : Z := 32.
Definition newline : Z := 10.

(** [_truncate_content].  [last_space > max_length * 0.8] compares an
    integer with the double [max_length * 0.8]; for [|max_length| < 2^49]
    that product rounds to a value with the same integer part as the exact
    [4/5 max_length] (and to it exactly when it is an integer), so the test
    is [5 * last_space > 4 * max_length]. *)
Definition truncate_content (content : pystr) (max_length : Z) : pystr :=
  if Z.leb (py_len content) max_length then content
  else
    let truncated := py_slice_to content max_length in
    let last_space := py_rfind truncated space in
    let truncated :=
      if Z.ltb (4 * max_length) (5 * last_space)
      then py_slice_to truncated last_space else truncated in
    (truncated ++ codes "...")%list.

(** The [for line in lines] loop of [_truncate_message], with its [break]:
    the kept lines and the final [current_length]. *)
Fixpoint take_lines (lines : list pystr) (current_length limit : Z) : list pystr * Z :=
  match lines with
  | [] => ([], current_length)
  | line :: rest =>
      if Z.leb (current_length + py_len line + 1) limit
      then let '(kept, c) := take_lines rest (current_length + py_len line + 1) limit in
           (line :: kept, c)
      else ([], current_length)
  end.

Definition message_continues : pystr := newline :: newline :: codes "...(message continues)".

(** [_truncate_message] *)
Definition truncate_message (content : pystr) (max_length : Z) : pystr :=
  if Z.leb (py_len content) max_length then content
  else
    let '(truncated_lines, current_length) :=
      take_lines (py_split newline content) 0 (max_length - 20) in
    let truncated_content := py_join newline truncated_lines in
    if Z.ltb current_length (py_len content)
    then (truncated_content ++ message_continues)%list
    else truncated_content.

(** The step names of the registry, in order. *)
Definition step_names (C : Agents) : list string := map fst (step_registry C).

(** What one [cancel_workflow] of [cleanup] leaves of an in-memory entry. *)
Definition keep_unless_in_progress (st : WorkflowState) : option WorkflowState :=
  if status_eqb (status st) IN_PROGRESS then None else Some st.

(** [get_health_metrics] of an initialised orchestrator ([initialize] has
    set [redis_client], [llm] and [workflow_graph]).  The counts range over
    [self.active_workflows.values()]; their order does not matter. *)
Definition count_status (s : WorkflowStatus) (o : Orchestrator) : nat :=
  length (filter (fun w => status_eqb (status w) s = true)
            (map snd (map_to_list (active_workflows o)))).

Definition get_health_metrics (o : Orchestrator) : Json :=
  JObj [("active_workflows", JNum (Z.of_nat (size (active_workflows o))));
        ("completed_workflows", JNum (Z.of_nat (count_status COMPLETED o)));
        ("failed_workflows", JNum (Z.of_nat (count_status FAILED o)));
        ("redis_connected", JBool true);
        ("llm_initialized", JBool true);
        ("graph_compiled", JBool true)].

(* ------------------------------------------------------------------ *)
(** ** Concrete scenarios *)

Definition t_start : datetime := mkDatetime 2025 6 14 18 30 5 0.
Definition t_eta : datetime := mkDatetime 2025 6 14 18 33 5 0.

Definition gala_event : gmap string Json :=
  <["title" := JStr "Summer Gala"]>
  (<["description" := JStr "Fundraising dinner"]>
  (<["start_date" := JStr "2025-07-01"]> ∅)).

Definition gala_prefs : gmap string Json :=
  <["flyer_style" := JStr "modern"]> ∅.

(** Agents whose calls all succeed. *)
Definition agents_ok : Agents :=
  mkAgents
    (fun _ _ => Returned (<["flyer_url" := JStr "https://cdn.example/f.png"]> ∅))
    (fun _ _ _ => Returned (<["instagram_caption" := JStr "Join us!"]> ∅))
    (fun _ _ => Returned (<["whatsapp_message_text" := JStr "Gala on 1 July"]> ∅))
    (fun _ _ => Returned (<["folder_id" := JStr "F1"]> ∅)).

(** Agents whose calls all fail: two raise, two return an error. *)
Definition agents_failing : Agents :=
  mkAgents
    (fun _ _ => Returned (<["error" := JStr "timeout"]> ∅))
    (fun _ _ _ => Raised "rate limited")
    (fun _ _ => Raised "boom")
    (fun _ _ => Returned (<["error" := JStr "quota exceeded"]> ∅)).

(** A run state in progress, after the first two steps. *)
Definition gala_state : WorkflowState :=
  mkWorkflowState "s1" "e1" IN_PROGRESS "create_flyer"
    ["validate_input"; "create_flyer"] [] gala_event gala_prefs ∅
    (<["flyer_url" := JStr "https://cdn.example/f.png"]> ∅)
    t_start (Some t_eta) None
    [HumanMessage "Create promotional content for event: Summer Gala"].

(** The orchestrator holding only that run, in memory and in Redis. *)
Definition gala_orch : Orchestrator :=
  store_workflow_state gala_state (set_active "s1" gala_state (mkOrchestrator ∅ ∅)).

(** The orchestrator after a completed run of the gala event. *)
Definition gala_done : WorkflowState * Orchestrator :=
  start_and_run agents_ok (mkOrchestrator ∅ ∅) "s1" "e1" gala_event gala_prefs ∅
    t_start t_eta.

(* ================================================================== *)
(** * Proofs *)

Ltac wf_setters :=
  cbn [generated_content completed_steps failed_steps status current_step session_id
       event_id event_data content_preferences user_info start_time
       estimated_completion error_message messages
       set_status set_current_step set_completed_steps set_failed_steps
       set_content_preferences set_generated_content set_error_message set_messages
       put_content append_completed append_failed append_message whatsapp_exception
       graph_writeback].

Ltac orch_simpl :=
  cbn [del_active set_active store_workflow_state active_workflows redis]; wf_setters.

(** ** Serialisation *)

Lemma append_cons_str (x : ascii) (a b : string) : String x a +:+ b = String x (a +:+ b).
Proof. reflexivity. Qed.

Lemma append_empty_str (b : string) : "" +:+ b = b.
Proof. reflexivity. Qed.

Lemma append_assoc_str (a b c : string) : (a +:+ b) +:+ c = a +:+ (b +:+ c).
Proof.
  induction a as [|x a IH]; [reflexivity|].
  rewrite !append_cons_str. now rewrite IH.
Qed.

Lemma append_nil_str (a : string) : a +:+ "" = a.
Proof. induction a as [|x a IH]; [reflexivity|]. rewrite append_cons_str. now rewrite IH. Qed.

Lemma read_digits_S_r (k : nat) (acc : Z) (s : string) :
  read_digits (S k) acc s =
  match read_digits k acc s with
  | Some (v, s') => read_digits 1 v s'
  | None => None
  end.
Proof.
  revert acc s. induction k as [|k IH]; intros acc s; [reflexivity|].
  destruct s as [|c s]; [reflexivity|].
  change (read_digits (S (S k)) acc (String c s)) with
    (match digit_val c with Some d => read_digits (S k) (acc * 10 + d) s | None => None end).
  change (read_digits (S k) acc (String c s)) with
    (match digit_val c with Some d => read_digits k (acc * 10 + d) s | None => None end).
  destruct (digit_val c); [apply IH | reflexivity].
Qed.

Lemma digit_val_char (d : Z) : 0 <= d < 10 -> digit_val (digit_char d) = Some d.
Proof.
  intros Hd. unfold digit_val, digit_char.
  rewrite nat_ascii_embedding by lia.
  replace (Nat.leb 48 (48 + Z.to_nat d)) with true by (symmetry; apply Nat.leb_le; lia).
  replace (Nat.leb (48 + Z.to_nat d) 57) with true by (symmetry; apply Nat.leb_le; lia).
  simpl. f_equal. lia.
Qed.

Lemma read_pad (k : nat) (n acc : Z) (s : string) :
  0 <= n < 10 ^ Z.of_nat k ->
  read_digits k acc (pad k n +:+ s) = Some (acc * 10 ^ Z.of_nat k + n, s).
Proof.
  revert n acc s. induction k as [|k IH]; intros n acc s Hn.
  - change (10 ^ Z.of_nat 0) with 1 in *.
    cbn [pad read_digits]. rewrite append_empty_str. f_equal. f_equal. lia.
  - rewrite Nat2Z.inj_succ, Z.pow_succ_r in * by lia.
    cbn [pad]. rewrite append_assoc_str, append_cons_str, append_empty_str.
    rewrite read_digits_S_r, IH.
    2:{ split; [apply Z.div_pos; lia | apply Z.div_lt_upper_bound; lia]. }
    cbn [read_digits]. rewrite digit_val_char by (apply Z.mod_pos_bound; lia).
    cbn [read_digits]. f_equal. f_equal.
    pose proof (Z.div_mod n 10 ltac:(lia)). lia.
Qed.

Lemma read_pad_end (k : nat) (n acc : Z) :
  0 <= n < 10 ^ Z.of_nat k ->
  read_digits k acc (pad k n) = Some (acc * 10 ^ Z.of_nat k + n, "").
Proof. intros Hn. rewrite <- (append_nil_str (pad k n)). now apply read_pad. Qed.

Lemma days_in_month_le (y m : Z) : days_in_month y m <= 31.
Proof.
  unfold days_in_month.
  destruct (Z.eqb m 2), (is_leap y); try lia;
  destruct (Z.eqb m 4 || Z.eqb m 6 || Z.eqb m 9 || Z.eqb m 11); lia.
Qed.

Lemma fromisoformat_isoformat (d : datetime) :
  valid_datetime d = true -> fromisoformat (isoformat d) = Some d.
Proof.
  intros Hv. pose proof Hv as Hv'.
  destruct d as [y mo dd h mi sec us]. unfold valid_datetime in Hv'. cbn [dt_year dt_month dt_day dt_hour dt_minute dt_second dt_microsecond] in Hv'.
  repeat rewrite andb_true_iff in Hv'.
  rewrite ?Z.leb_le, ?Z.ltb_lt in Hv'.
  pose proof (days_in_month_le y mo).
  unfold isoformat, fromisoformat. cbn [dt_year dt_month dt_day dt_hour dt_minute dt_second dt_microsecond].
  rewrite read_pad by (cbn; lia). cbn -[read_digits pad].
  rewrite read_pad by (cbn; lia). cbn -[read_digits pad].
  rewrite read_pad by (cbn; lia). cbn -[read_digits pad].
  unfold parse_time.
  rewrite read_pad by (cbn; lia). cbn -[read_digits pad].
  rewrite read_pad by (cbn; lia). cbn -[read_digits pad].
  destruct (Z.eqb_spec us 0) as [->|Hus].
  - rewrite read_pad by (cbn; lia). cbn -[read_digits pad valid_datetime].
    rewrite ?Z.mul_0_l, ?Z.add_0_l.
    rewrite Hv. reflexivity.
  - rewrite read_pad by (cbn; lia). cbn -[read_digits pad valid_datetime].
    rewrite read_pad_end by (cbn; lia). cbn -[read_digits pad valid_datetime].
    rewrite ?Z.mul_0_l, ?Z.add_0_l.
    rewrite Hv. reflexivity.
Qed.

Lemma json_str_list_strs (l : list string) : json_str_list (JArr (map JStr l)) = Some l.
Proof.
  unfold json_str_list. induction l as [|x l IH]; [reflexivity|].
  cbn [map mapM]. cbn in IH |- *. now rewrite IH.
Qed.

Lemma json_dict_obj (m : gmap string Json) : json_dict (obj_of_dict m) = Some m.
Proof.
  unfold json_dict, obj_of_dict, dict_of_obj. f_equal.
  rewrite (list_to_map_proper (reverse (map_to_list m)) (map_to_list m)).
  - apply list_to_map_to_list.
  - rewrite (reverse_Permutation (map_to_list m)). apply NoDup_fst_map_to_list.
  - apply reverse_Permutation.
Qed.

Lemma isoformat_truthy (d : datetime) : truthy (JStr (isoformat d)) = true.
Proof. unfold isoformat. destruct (pad 4 (dt_year d)); reflexivity. Qed.

Lemma parse_status_value (s : WorkflowStatus) : parse_status (status_value s) = Some s.
Proof. destruct s; reflexivity. Qed.

Lemma load_to_dict (st : WorkflowState) :
  valid_datetime (start_time st) = true ->
  opt_valid_datetime (estimated_completion st) = true ->
  load_state (to_dict st) = Some (set_messages [] st).
Proof.
  intros H0 H1.
  destruct st as [sid eid s cur cs fs ed cp ui gc t0 eta em msgs].
  cbn [start_time estimated_completion] in H0, H1.
  unfold to_dict, load_state.
  cbn -[isoformat fromisoformat obj_of_dict json_dict json_str_list truthy parse_status status_value].
  rewrite parse_status_value, !json_str_list_strs, !json_dict_obj. cbn -[isoformat fromisoformat truthy].
  rewrite fromisoformat_isoformat by exact H0. cbn -[isoformat fromisoformat truthy].
  destruct eta as [d|]; cbn -[isoformat fromisoformat truthy].
  - rewrite isoformat_truthy. cbn -[isoformat fromisoformat].
    rewrite fromisoformat_isoformat by exact H1.
    destruct em; reflexivity.
  - destruct em; reflexivity.
Qed.

Lemma assoc_last_snoc_ne (k k' : string) (v : Json) (kvs : list (string * Json)) :
  k <> k' -> assoc_last k (kvs ++ [(k', v)])%list = assoc_last k kvs.
Proof.
  intros Hne. induction kvs as [|[a b] kvs IH]; cbn [app assoc_last].
  - destruct (String.eqb_spec k k'); [contradiction | reflexivity].
  - now rewrite IH.
Qed.

Lemma calculate_progress_length (st : WorkflowState) :
  calculate_progress st = Z.min (100 * Z.of_nat (length (completed_steps st)) / 8) 100.
Proof.
  unfold calculate_progress, total_steps, Qfloor, Qdiv, Qmult, Qinv, inject_Z. cbn.
  f_equal. f_equal. ring.
Qed.

Lemma calculate_progress_bounds (st : WorkflowState) :
  0 <= calculate_progress st <= 100.
Proof.
  rewrite calculate_progress_length.
  pose proof (Z.div_pos (100 * Z.of_nat (length (completed_steps st))) 8 ltac:(lia) ltac:(lia)).
  lia.
Qed.

(** ** C3 *)

(** C3: the progress percentage is [min(100, floor(100 * |completed_steps| / 8))],
    so it depends only on the length of [completed_steps] (duplicates
    included), lies in [0, 100], and the [progress_percentage] entry of a
    stored record is never read back: loading ignores it. *)
Theorem calculate_progress_spec (st : WorkflowState) :
  calculate_progress st = Z.min (100 * Z.of_nat (length (completed_steps st)) / 8) 100 /\
  0 <= calculate_progress st <= 100 /\
  (forall (kvs : list (string * Json)) (v : Json),
     load_state (JObj (kvs ++ [("progress_percentage", v)])%list) = load_state (JObj kvs)).
Proof.
  split; [apply calculate_progress_length|].
  split; [apply calculate_progress_bounds|].
  intros kvs v. unfold load_state.
  rewrite !assoc_last_snoc_ne by discriminate.
  reflexivity.
Qed.

(** ** C4 *)

(** C4 (amended): for a state whose timestamps are valid [datetime]s,
    [to_dict] followed by the store-load path gives back every field,
    timestamps included, except [messages], which comes back empty. *)
Theorem to_dict_load_roundtrip (st : WorkflowState) :
  valid_datetime (start_time st) = true ->
  opt_valid_datetime (estimated_completion st) = true ->
  load_state (to_dict st) = Some (set_messages [] st).
Proof. apply load_to_dict. Qed.

Lemma to_dict_load_roundtrip_witness :
  (valid_datetime (start_time gala_state) = true /\
   opt_valid_datetime (estimated_completion gala_state) = true) /\
  load_state (to_dict gala_state) = Some (set_messages [] gala_state).
Proof.
  split; [split; reflexivity|].
  apply to_dict_load_roundtrip; reflexivity.
Defined.

(** C4 counterexample: the run state built by [start_workflow] carries a
    message, and the reloaded state has none, so it differs. *)
Lemma to_dict_load_drops_messages :
  load_state (to_dict gala_state) <> Some gala_state.
Proof.
  rewrite load_to_dict by reflexivity.
  intros H. apply (f_equal (option_map messages)) in H.
  cbn in H. discriminate H.
Qed.

(** ** C10 *)

(** C10: the calendar, ClickUp and finalize nodes always return normally:
    each sets [current_step] to its own name, appends that name to
    [completed_steps], leaves [failed_steps], the artifacts and
    [error_message] alone, and only [finalize_workflow] touches the status
    (setting it to [COMPLETED]). *)
Theorem placeholder_steps_always_succeed (C : Agents) (st : WorkflowState) :
  Forall (fun name =>
    match step_of C name with
    | Some f =>
        exists st', f st = Ok st' /\
          current_step st' = name /\
          completed_steps st' = (completed_steps st ++ [name])%list /\
          failed_steps st' = failed_steps st /\
          generated_content st' = generated_content st /\
          error_message st' = error_message st /\
          status st' = (if String.eqb name "finalize_workflow" then COMPLETED else status st)
    | None => False
    end)
    ["create_calendar_event"; "create_clickup_task"; "finalize_workflow"].
Proof.
  repeat constructor; cbn; eexists; (split; [reflexivity|]); cbn; repeat split.
Qed.

(** ** C1 *)

Lemma validate_input_exc (st st' : WorkflowState) (m : string) :
  validate_input st = Exc st' m ->
  completed_steps st' = completed_steps st /\
  failed_steps st' = (failed_steps st ++ ["validate_input"])%list /\
  error_message st' = Some m /\
  generated_content st' = generated_content st /\
  session_id st' = session_id st.
Proof.
  unfold validate_input.
  destruct (filter _ required_event_fields) as [|f fs].
  - destruct (negb (dict_truthy _)); intros H; [|discriminate H].
    inversion H; subst; cbn; repeat split.
  - intros H. inversion H; subst; cbn; repeat split.
Qed.

(** C1: when the first node [validate_input] raises in a run started by
    [start_workflow], the run ends [FAILED] with no completed step,
    ["validate_input"] in [failed_steps], the exception's message as
    [error_message], no artifact at all, that final state stored in Redis,
    and the run evicted from [active_workflows]. *)
Theorem first_step_failure_fails_run (C : Agents) (o : Orchestrator) (sid eid : string)
    (ed prefs ui : gmap string Json) (now eta : datetime) (msg : string) :
  step_exception (validate_input (fst (start_workflow o sid eid ed prefs ui now eta))) = Some msg ->
  let r := start_and_run C o sid eid ed prefs ui now eta in
  status (fst r) = FAILED /\
  completed_steps (fst r) = [] /\
  In "validate_input" (failed_steps (fst r)) /\
  error_message (fst r) = Some msg /\
  generated_content (fst r) = ∅ /\
  redis (snd r) !! redis_key sid = Some (to_dict (fst r)) /\
  active_workflows (snd r) !! sid = None.
Proof.
  unfold start_and_run, start_workflow. cbn [fst].
  set (st0 := mkWorkflowState sid eid IN_PROGRESS "validate_input" [] [] ed prefs ui ∅ now
                (Some eta) None _).
  intros Hm.
  destruct (validate_input st0) as [st1|st1 m] eqn:Hv; [discriminate Hm|].
  cbn in Hm. injection Hm as ->.
  destruct (validate_input_exc _ _ _ Hv) as (Hc & Hf & He & Hg & Hs).
  unfold execute_workflow. cbn [step_registry run_steps]. rewrite Hv.
  unfold alias_active, evict_if_terminal. cbn [fst snd]. orch_simpl. cbn [st0 session_id].
  rewrite lookup_insert_eq, (bool_decide_eq_true_2 (is_Some (Some st0))) by eauto.
  orch_simpl. cbn [st0 session_id].
  rewrite lookup_insert_eq, (bool_decide_eq_true_2 (is_Some (Some _))) by eauto.
  cbn [andb orb status_eqb]. orch_simpl.
  rewrite Hc, Hf, Hg. cbn [st0 completed_steps failed_steps generated_content].
  repeat split.
  - now left.
  - unfold st0. cbn [session_id]. now rewrite lookup_insert_eq.
  - now rewrite lookup_delete_eq.
Qed.

Lemma first_step_failure_fails_run_witness :
  step_exception (validate_input (fst (start_workflow (mkOrchestrator ∅ ∅) "s2" "e2"
     (<["title" := JStr "Untitled"]> ∅) gala_prefs ∅ t_start t_eta)))
    = Some "Missing required event data fields: description, start_date" /\
  let r := start_and_run agents_ok (mkOrchestrator ∅ ∅) "s2" "e2"
             (<["title" := JStr "Untitled"]> ∅) gala_prefs ∅ t_start t_eta in
  status (fst r) = FAILED /\
  completed_steps (fst r) = [] /\
  In "validate_input" (failed_steps (fst r)) /\
  error_message (fst r) = Some "Missing required event data fields: description, start_date" /\
  generated_content (fst r) = ∅ /\
  redis (snd r) !! redis_key "s2" = Some (to_dict (fst r)) /\
  active_workflows (snd r) !! "s2" = None.
Proof.
  split; [vm_compute; reflexivity|].
  apply first_step_failure_fails_run. vm_compute. reflexivity.
Defined.

(** ** C2 *)

(** C2 counterexample: in a run whose input validates, the Google Drive
    agent returns an error; [setup_google_drive] records the failure in
    [failed_steps] but writes no [setup_google_drive_error] artifact, and
    the run ends [FAILED] with the [_notify_backend] error, not
    [COMPLETED]. *)
Lemma best_effort_failure_counterexample :
  let r := start_and_run agents_failing (mkOrchestrator ∅ ∅) "s1" "e1" gala_event
             gala_prefs ∅ t_start t_eta in
  In "validate_input" (completed_steps (fst r)) /\
  In "setup_google_drive" (failed_steps (fst r)) /\
  generated_content (fst r) !! "setup_google_drive_error" = None /\
  status (fst r) = FAILED /\
  error_message (fst r) = Some notify_backend_error.
Proof.
  vm_compute. repeat split; auto 10.
Qed.

(** ** C5 *)

Ltac obind_some H :=
  repeat match type of H with
  | context [obind ?m _] =>
      let E := fresh "E" in
      destruct m eqn:E; cbn [obind] in H; [|discriminate H]
  end.

Lemma load_state_status (v : Json) (st : WorkflowState) :
  load_state v = Some st ->
  exists data sv, v = JObj data /\
    obind (assoc_last "status" data) json_str = Some sv /\ parse_status sv = Some (status st).
Proof.
  intros H. destruct v as [| | | | |data]; try discriminate H.
  unfold load_state in H.
  destruct (obind (assoc_last "session_id" data) json_str); cbn [obind] in H; [|discriminate H].
  destruct (obind (assoc_last "event_id" data) json_str); cbn [obind] in H; [|discriminate H].
  destruct (obind (assoc_last "status" data) json_str) as [sv|] eqn:Esv;
    cbn [obind] in H; [|discriminate H].
  destruct (parse_status sv) as [w|] eqn:Ew; cbn [obind] in H; [|discriminate H].
  obind_some H.
  injection H as <-. exists data, sv. cbn. auto.
Qed.

Lemma load_to_dict_status (st st' : WorkflowState) :
  load_state (to_dict st) = Some st' -> status st' = status st.
Proof.
  intros H. destruct (load_state_status _ _ H) as (data & sv & Hd & Hs & Hp).
  unfold to_dict in Hd. injection Hd as <-. cbn in Hs. injection Hs as <-.
  rewrite parse_status_value in Hp. now injection Hp.
Qed.

(** C5 (amended): [cancel_workflow] returns [true] exactly when the state
    found for the id (memory first, then Redis) is [IN_PROGRESS]; it then
    stores that state as [CANCELLED] with [current_step = "cancelled"] and
    evicts the id from [active_workflows], otherwise it changes nothing;
    a cancel right after a successful one returns [false]. *)
Theorem cancel_workflow_spec (o : Orchestrator) (sid : string) :
  session_consistent o sid = true ->
  let r := cancel_workflow o sid in
  (fst r = true <->
     exists st, get_workflow_state o sid = Some st /\ status st = IN_PROGRESS) /\
  (fst r = true ->
     (forall st, get_workflow_state o sid = Some st ->
        redis (snd r) !! redis_key sid =
          Some (to_dict (set_current_step "cancelled" (set_status CANCELLED st)))) /\
     active_workflows (snd r) !! sid = None /\
     fst (cancel_workflow (snd r) sid) = false) /\
  (fst r = false -> snd r = o).
Proof.
  intros Hc. unfold session_consistent in Hc. unfold cancel_workflow.
  destruct (get_workflow_state o sid) as [st|] eqn:Hg.
  2:{ cbn. split; [split; [discriminate|intros (? & ? & _); discriminate]|].
      split; [discriminate|reflexivity]. }
  apply String.eqb_eq in Hc.
  destruct (status st) eqn:Hs; cbn [status_eqb fst snd];
    try (split; [split; [discriminate|intros (st0 & Hst & Hst'); injection Hst as <-;
                                      congruence]|];
         split; [discriminate|reflexivity]).
  split; [split; [intros _; eauto|reflexivity]|].
  split; [|discriminate].
  intros _. cbn [store_workflow_state del_active redis active_workflows session_id
                 set_current_step set_status].
  rewrite Hc. split; [|split].
  - intros st1 Hg1. injection Hg1 as <-. apply lookup_insert_eq.
  - apply lookup_delete_eq.
  - unfold cancel_workflow, get_workflow_state.
    cbn [active_workflows redis store_workflow_state del_active session_id
         set_current_step set_status].
    rewrite Hc, lookup_delete_eq, lookup_insert_eq. cbn [obind].
    destruct (load_state _) as [st2|] eqn:Hl; [|reflexivity].
    apply load_to_dict_status in Hl. rewrite Hl. reflexivity.
Qed.

Lemma cancel_workflow_spec_witness :
  session_consistent gala_orch "s1" = true /\
  let r := cancel_workflow gala_orch "s1" in
  (fst r = true <->
     exists st, get_workflow_state gala_orch "s1" = Some st /\ status st = IN_PROGRESS) /\
  (fst r = true ->
     (forall st, get_workflow_state gala_orch "s1" = Some st ->
        redis (snd r) !! redis_key "s1" =
          Some (to_dict (set_current_step "cancelled" (set_status CANCELLED st)))) /\
     active_workflows (snd r) !! "s1" = None /\
     fst (cancel_workflow (snd r) "s1") = false) /\
  (fst r = false -> snd r = gala_orch).
Proof.
  split; [vm_compute; reflexivity|].
  apply cancel_workflow_spec. vm_compute. reflexivity.
Defined.

(** C5 counterexample: after a successful cancel, a progress push with
    status ["in_progress"] puts the run back in progress, and a second
    cancel of the same run returns [true] again. *)
Lemma cancel_true_twice :
  let r1 := cancel_workflow gala_orch "s1" in
  let o2 := update_workflow_progress (snd r1) "s1" "in_progress" "create_social_content"
              None None None None in
  fst r1 = true /\ fst (cancel_workflow o2 "s1") = true.
Proof. vm_compute. split; reflexivity. Qed.

(** ** C6 *)

Ltac in_list :=
  apply list_elem_of_In; cbn [In]; repeat (first [left; reflexivity | right]).

Ltac key_frame Hk :=
  repeat (rewrite lookup_insert_ne by (let E := fresh in intros E; subst; apply Hk; in_list));
  reflexivity.

Lemma create_flyer_frame (C : Agents) (st : WorkflowState) (k : string) :
  k ∉ flyer_keys ->
  generated_content (create_flyer C st) !! k = generated_content st !! k.
Proof.
  intros Hk. unfold create_flyer, flyer_keys in *.
  destruct (generate_flyer _ _ _) as [r|e]; [destruct (truthy _)|];
    wf_setters; key_frame Hk.
Qed.

Lemma create_social_content_frame (C : Agents) (st : WorkflowState) (k : string) :
  k ∉ social_keys ->
  generated_content (create_social_content C st) !! k = generated_content st !! k.
Proof.
  intros Hk. unfold create_social_content, social_keys in *.
  destruct (negb _); [wf_setters; key_frame Hk|].
  destruct (generate_content _ _ _ _) as [r|e]; [destruct (truthy _)|];
    wf_setters; key_frame Hk.
Qed.

Lemma create_whatsapp_message_frame (C : Agents) (st : WorkflowState) (k : string) :
  k ∉ whatsapp_keys ->
  generated_content (create_whatsapp_message C st) !! k = generated_content st !! k.
Proof.
  intros Hk. unfold create_whatsapp_message, whatsapp_keys in *.
  destruct (generate_message _ _ _) as [r|e]; [destruct (truthy _); [|destruct (slice_error _)]|];
    wf_setters; key_frame Hk.
Qed.

(** C6 counterexample: regenerating the social content of a run in
    progress succeeds at the step itself (the new caption is written), yet
    the run ends [FAILED] with the [_notify_backend] error, never
    [COMPLETED]; [current_step] keeps the regeneration marker. *)
Lemma regenerate_ends_failed :
  match regenerate_content agents_ok gala_orch "s1" "e1" "social" ∅ with
  | inl _ => False
  | inr (st', _) =>
      generated_content st' !! "instagram_caption" = Some (JStr "Join us!") /\
      current_step st' = "regenerated_social" /\
      status st' = FAILED /\
      error_message st' = Some notify_backend_error
  end.
Proof. vm_compute. repeat split; reflexivity. Qed.

(** ** C7 *)

(** C7 (divergence): on the normal path the finished run (it ends
    [FAILED], see [_notify_backend]) leaves [active_workflows] and stays
    readable in Redis, but regenerating it puts the [FAILED] run back into
    [active_workflows], where nothing evicts it. *)
Lemma regenerate_keeps_failed_active :
  status (fst gala_done) = FAILED /\
  active_workflows (snd gala_done) !! "s1" = None /\
  redis (snd gala_done) !! redis_key "s1" = Some (to_dict (fst gala_done)) /\
  match regenerate_content agents_ok (snd gala_done) "s1" "e1" "whatsapp" ∅ with
  | inl _ => False
  | inr (st', o') =>
      status st' = FAILED /\ active_workflows o' !! "s1" = Some st'
  end.
Proof. vm_compute. repeat split; reflexivity. Qed.

(** ** C8 *)

(** C8 (amended): on an existing run and a valid status value,
    [update_workflow_progress] stores and activates a state whose status and
    current step are the given ones, whose artifacts are the supplied dict
    merged over the old artifacts (the supplied keys win), and whose
    [completed_steps] and [failed_steps] are replaced only by a non-empty
    list argument: an absent or empty list leaves the old list. *)
Theorem update_workflow_progress_spec (o : Orchestrator) (sid status_v cur : string)
    (cs fs : option (list string)) (em : option string) (gc : option (gmap string Json))
    (st : WorkflowState) (s : WorkflowStatus) :
  get_workflow_state o sid = Some st ->
  parse_status status_v = Some s ->
  let o' := update_workflow_progress o sid status_v cur cs fs em gc in
  exists st',
    active_workflows o' !! sid = Some st' /\
    redis o' !! redis_key (session_id st) = Some (to_dict st') /\
    status st' = s /\ current_step st' = cur /\
    generated_content st' = default ∅ gc ∪ generated_content st /\
    completed_steps st' =
      match cs with Some ((_ :: _) as l) => l | _ => completed_steps st end /\
    failed_steps st' =
      match fs with Some ((_ :: _) as l) => l | _ => failed_steps st end.
Proof.
  intros Hg Hp. unfold update_workflow_progress. rewrite Hg, Hp. cbv beta zeta.
  eexists. split; [cbn [set_active active_workflows]; apply lookup_insert_eq|].
  split.
  { cbn [set_active redis store_workflow_state].
    match goal with |- <[ redis_key (session_id ?x) := _ ]> _ !! _ = _ =>
      replace (session_id x) with (session_id st) by (repeat case_match; reflexivity)
    end.
    apply lookup_insert_eq. }
  destruct gc as [g|]; cbn [default id].
  2:{ rewrite map_empty_union.
      repeat case_match; wf_setters; repeat split; reflexivity. }
  destruct (dict_truthy g) eqn:Hd.
  2:{ unfold dict_truthy in Hd. apply negb_false_iff, bool_decide_eq_true in Hd. subst g.
      rewrite map_empty_union.
      repeat case_match; wf_setters; repeat split; reflexivity. }
  repeat case_match; wf_setters; repeat split; reflexivity.
Qed.

Lemma update_workflow_progress_spec_witness :
  get_workflow_state gala_orch "s1" = Some gala_state /\
  parse_status "in_progress" = Some IN_PROGRESS /\
  let o' := update_workflow_progress gala_orch "s1" "in_progress" "create_social_content"
              (Some ["validate_input"]) None None
              (Some (<["instagram_caption" := JStr "Hi"]> ∅)) in
  exists st',
    active_workflows o' !! "s1" = Some st' /\
    redis o' !! redis_key (session_id gala_state) = Some (to_dict st') /\
    status st' = IN_PROGRESS /\ current_step st' = "create_social_content" /\
    generated_content st' =
      default ∅ (Some (<["instagram_caption" := JStr "Hi"]> ∅)) ∪ generated_content gala_state /\
    completed_steps st' =
      match Some ["validate_input"] with
      | Some ((_ :: _) as l) => l | _ => completed_steps gala_state end /\
    failed_steps st' =
      match (None : option (list string)) with
      | Some ((_ :: _) as l) => l | _ => failed_steps gala_state end.
Proof.
  split; [vm_compute; reflexivity|]. split; [reflexivity|].
  apply update_workflow_progress_spec; [vm_compute; reflexivity | reflexivity].
Defined.

(** C8 counterexample: an empty [completed_steps] argument is falsy, so the
    old list is kept rather than replaced by the empty list. *)
Lemma update_progress_empty_list_kept :
  match get_workflow_state
          (update_workflow_progress gala_orch "s1" "in_progress" "create_social_content"
             (Some []) (Some []) None None) "s1" with
  | Some st' => completed_steps st' = ["validate_input"; "create_flyer"]
  | None => False
  end.
Proof. vm_compute. reflexivity. Qed.

(** ** C9 *)

Lemma completed_extends_refl (st : WorkflowState) : completed_extends st st.
Proof. exists []. rewrite app_nil_r. reflexivity. Qed.

Lemma completed_extends_trans (a b c : WorkflowState) :
  completed_extends a b -> completed_extends b c -> completed_extends a c.
Proof.
  intros [l1 H1] [l2 H2]. exists (l1 ++ l2)%list. rewrite H2, H1, app_assoc. reflexivity.
Qed.

Lemma completed_extends_if (f : WorkflowState -> WorkflowState) :
  (forall s, completed_extends s (f s)) ->
  forall (b : bool) (s : WorkflowState), completed_extends s (if b then f s else s).
Proof. intros Hf [|] s; [apply Hf|apply completed_extends_refl]. Qed.

Ltac extends_step :=
  repeat case_match; wf_setters;
  first [ exists []; rewrite app_nil_r; reflexivity | eexists; reflexivity ].

Lemma validate_input_extends (st : WorkflowState) :
  completed_extends st (step_state (validate_input st)).
Proof.
  unfold completed_extends, validate_input, validation_failed.
  repeat case_match; cbn [step_state]; wf_setters;
    first [ exists []; rewrite app_nil_r; reflexivity | eexists; reflexivity ].
Qed.

Lemma create_flyer_extends (C : Agents) (st : WorkflowState) :
  completed_extends st (create_flyer C st).
Proof. unfold completed_extends, create_flyer. extends_step. Qed.

Lemma create_social_content_extends (C : Agents) (st : WorkflowState) :
  completed_extends st (create_social_content C st).
Proof. unfold completed_extends, create_social_content. extends_step. Qed.

Lemma create_whatsapp_message_extends (C : Agents) (st : WorkflowState) :
  completed_extends st (create_whatsapp_message C st).
Proof. unfold completed_extends, create_whatsapp_message. extends_step. Qed.

Lemma setup_google_drive_extends (C : Agents) (st : WorkflowState) :
  completed_extends st (setup_google_drive C st).
Proof. unfold completed_extends, setup_google_drive. extends_step. Qed.

Lemma registry_extends (C : Agents) :
  Forall (fun p => forall st, completed_extends st (step_state (snd p st))) (step_registry C).
Proof.
  repeat constructor; intros st; cbn [snd step_state].
  - apply validate_input_extends.
  - apply create_flyer_extends.
  - apply create_social_content_extends.
  - apply create_whatsapp_message_extends.
  - apply setup_google_drive_extends.
  - unfold completed_extends, create_calendar_event. extends_step.
  - unfold completed_extends, create_clickup_task. extends_step.
  - unfold completed_extends, finalize_workflow. extends_step.
Qed.

Lemma run_steps_extends (steps : list (string * (WorkflowState -> StepResult)))
    (st : WorkflowState) :
  Forall (fun p => forall st, completed_extends st (step_state (snd p st))) steps ->
  completed_extends st (step_state (run_steps steps st)).
Proof.
  revert st. induction steps as [|[n f] rest IH]; intros st HF.
  - apply completed_extends_refl.
  - inversion HF as [|? ? Hf Hrest]; subst. cbn [run_steps].
    specialize (Hf st). cbn [snd] in Hf.
    destruct (f st) as [st1|st1 m]; cbn [step_state] in *.
    + eapply completed_extends_trans; [exact Hf|]. apply IH, Hrest.
    + exact Hf.
Qed.

Lemma progress_mono (st st' : WorkflowState) :
  completed_extends st st' -> calculate_progress st <= calculate_progress st'.
Proof.
  intros [l Hl]. rewrite !calculate_progress_length, Hl, List.length_app, Nat2Z.inj_add.
  pose proof (Z.div_le_mono (100 * Z.of_nat (length (completed_steps st)))
                (100 * (Z.of_nat (length (completed_steps st)) + Z.of_nat (length l))) 8
                ltac:(lia) ltac:(lia)).
  lia.
Qed.

(** C9 (amended): progress never decreases under step execution, a whole
    run of [_execute_workflow], or [regenerate_content] (compared with the
    state it starts from); only [update_workflow_progress] can lower it. *)
Theorem progress_monotone_except_update (C : Agents) :
  Forall (fun p => forall st, calculate_progress st <= calculate_progress (step_state (snd p st)))
    (step_registry C) /\
  (forall st o, calculate_progress st <= calculate_progress (fst (execute_workflow C st o))) /\
  (forall o sid eid rt prefs,
     match get_workflow_state o sid, regenerate_content C o sid eid rt prefs with
     | Some st, inr (st', _) => calculate_progress st <= calculate_progress st'
     | _, _ => True
     end).
Proof.
  split; [|split].
  - eapply Forall_impl; [apply registry_extends|]. intros p Hp st. apply progress_mono, Hp.
  - intros st o. apply progress_mono. unfold execute_workflow.
    pose proof (run_steps_extends (step_registry C) st (registry_extends C)) as Hx.
    destruct (run_steps _ _) as [fin|st' e]; cbv zeta; cbn [fst step_state] in *;
      unfold completed_extends in *; wf_setters; exact Hx.
  - intros o sid eid rt prefs. unfold regenerate_content.
    destruct (get_workflow_state o sid) as [st|]; [|exact I].
    cbv beta zeta. apply progress_mono.
    unfold completed_extends. wf_setters. fold (completed_extends st).
    eapply completed_extends_trans;
      [|apply (completed_extends_if _ (create_whatsapp_message_extends C))].
    eapply completed_extends_trans;
      [|apply (completed_extends_if _ (create_social_content_extends C))].
    eapply completed_extends_trans;
      [|apply (completed_extends_if _ (create_flyer_extends C))].
    exists []. wf_setters. rewrite app_nil_r. reflexivity.
Qed.

(** C9 counterexample: a progress update that passes a shorter
    [completed_steps] list lowers progress from 25 to 12. *)
Lemma update_progress_lowers_progress :
  calculate_progress gala_state = 25 /\
  match get_workflow_state
          (update_workflow_progress gala_orch "s1" "in_progress" "create_flyer"
             (Some ["validate_input"]) None None None) "s1" with
  | Some st' => calculate_progress st' = 12
  | None => False
  end.
Proof. vm_compute. split; reflexivity. Qed.

(* ================================================================== *)
(** * Further properties of the orchestrator and the content agents *)

(** ** Text helpers *)

Lemma py_len_cons (x : Z) (r : pystr) : py_len (x :: r) = py_len r + 1.
Proof. unfold py_len. cbn [length]. lia. Qed.

Lemma py_len_app (a b : pystr) : py_len (a ++ b)%list = py_len a + py_len b.
Proof. unfold py_len. rewrite List.length_app. lia. Qed.

Lemma py_rfind_spec (s : pystr) (c : Z) :
  py_rfind s c = -1 \/
  (0 <= py_rfind s c < py_len s /\ s !! Z.to_nat (py_rfind s c) = Some c).
Proof.
  induction s as [|x r IH]; cbn [py_rfind]; [left; reflexivity|].
  rewrite py_len_cons.
  destruct (Z.leb_spec 0 (py_rfind r c)) as [Hk|Hk].
  - destruct IH as [E|[Hb Hl]]; [lia|]. right. split; [lia|].
    replace (Z.to_nat (py_rfind r c + 1)) with (S (Z.to_nat (py_rfind r c))) by lia.
    exact Hl.
  - destruct (Z.eqb_spec x c) as [->|]; [right|left; reflexivity].
    pose proof (Zle_0_nat (length r)). unfold py_len. split; [lia|reflexivity].
Qed.

(** X1: [_truncate_content] returns a short text unchanged; a longer one,
    for a non-negative [max_length], becomes a prefix of the text followed
    by ["..."], where the prefix keeps at least four fifths of
    [max_length] and at most [max_length] characters, and is either the
    first [max_length] characters or ends just before a space. *)
Theorem truncate_content_bounds (content : pystr) (max_length : Z) :
  0 <= max_length ->
  (py_len content <= max_length -> truncate_content content max_length = content) /\
  (max_length < py_len content ->
   exists p, truncate_content content max_length = (p ++ codes "...")%list /\
     p `prefix_of` content /\
     4 * max_length <= 5 * py_len p /\ py_len p <= max_length /\
     (p = take (Z.to_nat max_length) content \/ content !! length p = Some space)).
Proof.
  intros Hm. unfold truncate_content. split.
  { intros H. destruct (Z.leb_spec (py_len content) max_length); [reflexivity|lia]. }
  intros H. destruct (Z.leb_spec (py_len content) max_length) as [|_]; [lia|].
  cbv zeta.
  replace (py_slice_to content max_length) with (take (Z.to_nat max_length) content)
    by (unfold py_slice_to; destruct (Z.leb_spec 0 max_length); [reflexivity|lia]).
  assert (Ht : py_len (take (Z.to_nat max_length) content) = max_length).
  { unfold py_len in *. rewrite length_take. lia. }
  destruct (py_rfind_spec (take (Z.to_nat max_length) content) space) as [E|[Hb Hl]].
  - rewrite E. destruct (Z.ltb_spec (4 * max_length) (5 * -1)); [lia|].
    exists (take (Z.to_nat max_length) content).
    split; [reflexivity|]. split; [apply prefix_take|]. split; [lia|]. split; [lia|].
    left; reflexivity.
  - set (ls := py_rfind (take (Z.to_nat max_length) content) space) in *.
    destruct (Z.ltb_spec (4 * max_length) (5 * ls)).
    + unfold py_slice_to. destruct (Z.leb_spec 0 ls) as [_|]; [|lia].
      rewrite take_take.
      exists (take (Z.to_nat ls `min` Z.to_nat max_length) content).
      split; [reflexivity|]. split; [apply prefix_take|].
      assert (Hls : py_len (take (Z.to_nat ls `min` Z.to_nat max_length) content) = ls).
      { unfold py_len in *. rewrite length_take. lia. }
      split; [lia|]. split; [lia|]. right.
      rewrite lookup_take_lt in Hl by lia.
      unfold py_len in *. rewrite length_take.
      replace ((Z.to_nat ls `min` Z.to_nat max_length) `min` length content)%nat
        with (Z.to_nat ls) by lia.
      exact Hl.
    + exists (take (Z.to_nat max_length) content).
      split; [reflexivity|]. split; [apply prefix_take|]. split; [lia|]. split; [lia|].
      left; reflexivity.
Qed.

Lemma truncate_content_bounds_witness :
  0 <= 12 /\
  (py_len (codes "hello world this is long") <= 12 ->
   truncate_content (codes "hello world this is long") 12 = codes "hello world this is long") /\
  (12 < py_len (codes "hello world this is long") ->
   exists p, truncate_content (codes "hello world this is long") 12 = (p ++ codes "...")%list /\
     p `prefix_of` codes "hello world this is long" /\
     4 * 12 <= 5 * py_len p /\ py_len p <= 12 /\
     (p = take (Z.to_nat 12) (codes "hello world this is long") \/
      codes "hello world this is long" !! length p = Some space)).
Proof. split; [lia|]. apply truncate_content_bounds. lia. Defined.

Lemma py_split_nonempty (sep : Z) (s : pystr) : py_split sep s <> [].
Proof.
  destruct s as [|c r]; cbn [py_split]; [discriminate|].
  destruct (Z.eqb c sep); [discriminate|]. destruct (py_split sep r); discriminate.
Qed.

Lemma py_join_cons_hd (sep c : Z) (p : pystr) (ps : list pystr) :
  py_join sep ((c :: p) :: ps) = c :: py_join sep (p :: ps).
Proof. destruct ps; reflexivity. Qed.

Lemma py_join_split (sep : Z) (s : pystr) : py_join sep (py_split sep s) = s.
Proof.
  induction s as [|c r IH]; [reflexivity|]. cbn [py_split].
  pose proof (py_split_nonempty sep r) as Hne.
  destruct (Z.eqb_spec c sep) as [->|].
  - destruct (py_split sep r) as [|p ps]; [contradiction|].
    change (py_join sep ([] :: p :: ps)) with ([] ++ sep :: py_join sep (p :: ps))%list.
    rewrite IH. reflexivity.
  - destruct (py_split sep r) as [|p ps]; [contradiction|].
    rewrite py_join_cons_hd, IH. reflexivity.
Qed.

Lemma py_join_take_prefix (sep : Z) (ps : list pystr) (k : nat) :
  py_join sep (take k ps) `prefix_of` py_join sep ps.
Proof.
  revert k. induction ps as [|p ps IH]; intros k; [destruct k; reflexivity|].
  destruct k as [|k]; [apply prefix_nil|]. cbn [take].
  destruct ps as [|q qs]; [destruct k; reflexivity|].
  destruct k as [|k].
  - cbn [take py_join]. apply prefix_app_r. reflexivity.
  - change (py_join sep (p :: take (S k) (q :: qs)))
      with (p ++ sep :: py_join sep (take (S k) (q :: qs)))%list.
    change (py_join sep (p :: q :: qs)) with (p ++ sep :: py_join sep (q :: qs))%list.
    apply prefix_app, prefix_cons, IH.
Qed.

Lemma take_lines_spec (sep : Z) (lines : list pystr) (cur lim : Z) :
  exists k, fst (take_lines lines cur lim) = take k lines /\
    ((fst (take_lines lines cur lim) = [] /\ snd (take_lines lines cur lim) = cur) \/
     (fst (take_lines lines cur lim) <> [] /\
      snd (take_lines lines cur lim) =
        cur + py_len (py_join sep (fst (take_lines lines cur lim))) + 1 /\
      snd (take_lines lines cur lim) <= lim)).
Proof.
  revert cur. induction lines as [|l rest IH]; intros cur; cbn [take_lines].
  - exists 0%nat. split; [reflexivity|]. left. split; reflexivity.
  - destruct (Z.leb_spec (cur + py_len l + 1) lim) as [Hle|Hgt].
    + destruct (IH (cur + py_len l + 1)) as [k [Hk Hs]].
      destruct (take_lines rest (cur + py_len l + 1) lim) as [kept c].
      cbn [fst snd] in *. exists (S k). split; [rewrite Hk; reflexivity|]. right.
      split; [discriminate|].
      destruct Hs as [[-> ->]|[Hne [-> Hc]]].
      * cbn [py_join]. split; lia.
      * destruct kept as [|q qs]; [contradiction|].
        change (py_join sep (l :: q :: qs)) with (l ++ sep :: py_join sep (q :: qs))%list.
        rewrite py_len_app, py_len_cons. split; lia.
    + exists 0%nat. split; [reflexivity|]. left. split; reflexivity.
Qed.

(** X2: [_truncate_message] returns a short message unchanged; a longer
    one, for a non-negative [max_length], becomes a prefix of the message
    made of whole lines followed by ["\n\n...(message continues)"], and is
    at most [max_length + 3] characters long (24 when not even the first
    line fits). *)
Theorem truncate_message_bounds (content : pystr) (max_length : Z) :
  0 <= max_length ->
  (py_len content <= max_length -> truncate_message content max_length = content) /\
  (max_length < py_len content ->
   exists kept, truncate_message content max_length = (kept ++ message_continues)%list /\
     kept `prefix_of` content /\
     (exists k, kept = py_join newline (take k (py_split newline content))) /\
     py_len (truncate_message content max_length) <= Z.max (max_length + 3) 24).
Proof.
  intros Hm. unfold truncate_message. split.
  { intros H. destruct (Z.leb_spec (py_len content) max_length); [reflexivity|lia]. }
  intros H. destruct (Z.leb_spec (py_len content) max_length) as [|_]; [lia|].
  assert (Hmc : py_len message_continues = 24) by reflexivity.
  destruct (take_lines_spec newline (py_split newline content) 0 (max_length - 20))
    as [k [Hk Hs]].
  destruct (take_lines (py_split newline content) 0 (max_length - 20)) as [kept c].
  cbn [fst snd] in *.
  assert (Hpre : py_join newline kept `prefix_of` content).
  { rewrite Hk. rewrite <- (py_join_split newline content) at 2.
    apply py_join_take_prefix. }
  destruct Hs as [[-> ->]|[Hne [Hc Hlim]]].
  - destruct (Z.ltb_spec 0 (py_len content)); [|lia].
    exists []. split; [reflexivity|]. split; [apply prefix_nil|].
    split; [exists k; rewrite <- Hk; reflexivity|].
    rewrite py_len_app, Hmc. assert (py_len (py_join newline []) = 0) by reflexivity. lia.
  - destruct (Z.ltb_spec c (py_len content)); [|lia].
    exists (py_join newline kept). split; [reflexivity|]. split; [exact Hpre|].
    split; [exists k; rewrite Hk; reflexivity|].
    rewrite py_len_app, Hmc. lia.
Qed.

Lemma truncate_message_bounds_witness :
  0 <= 30 /\
  (py_len (codes "line one line two line three") <= 30 ->
   truncate_message (codes "line one line two line three") 30 =
     codes "line one line two line three") /\
  (30 < py_len (codes "line one line two line three") ->
   exists kept, truncate_message (codes "line one line two line three") 30 =
       (kept ++ message_continues)%list /\
     kept `prefix_of` codes "line one line two line three" /\
     (exists k, kept = py_join newline (take k (py_split newline
                          (codes "line one line two line three")))) /\
     py_len (truncate_message (codes "line one line two line three") 30)
       <= Z.max (30 + 3) 24).
Proof. split; [lia|]. apply truncate_message_bounds. lia. Defined.

(** ** Status queries *)

Lemma run_steps_preserve (R : WorkflowState -> WorkflowState -> Prop)
    (Hrefl : forall s, R s s) (Htrans : forall a b c, R a b -> R b c -> R a c)
    (steps : list (string * (WorkflowState -> StepResult))) (st : WorkflowState) :
  Forall (fun p => forall st, R st (step_state (snd p st))) steps ->
  R st (step_state (run_steps steps st)).
Proof.
  revert st. induction steps as [|[n f] rest IH]; intros st HF; [apply Hrefl|].
  inversion HF as [|? ? Hf Hrest]; subst. cbn [run_steps].
  specialize (Hf st). cbn [snd] in Hf.
  destruct (f st) as [st1|st1 m]; cbn [step_state] in *; [|exact Hf].
  eapply Htrans; [exact Hf|]. apply IH, Hrest.
Qed.

Ltac unfold_steps :=
  unfold validate_input, validation_failed, create_flyer, create_social_content,
    create_whatsapp_message, whatsapp_exception, setup_google_drive,
    create_calendar_event, create_clickup_task, finalize_workflow.

(** No node changes the run's id or its timestamps. *)
Lemma registry_keeps_identity (C : Agents) :
  Forall (fun p => forall st,
    session_id (step_state (snd p st)) = session_id st /\
    start_time (step_state (snd p st)) = start_time st /\
    estimated_completion (step_state (snd p st)) = estimated_completion st)
    (step_registry C).
Proof.
  unfold step_registry.
  repeat (apply List.Forall_cons;
          [intros st; cbn [snd]; unfold_steps;
           repeat case_match; cbn [step_state]; wf_setters; repeat split|]).
  apply List.Forall_nil.
Qed.

Lemma run_keeps_identity (C : Agents) (st : WorkflowState) :
  session_id (step_state (run_steps (step_registry C) st)) = session_id st /\
  start_time (step_state (run_steps (step_registry C) st)) = start_time st /\
  estimated_completion (step_state (run_steps (step_registry C) st)) =
    estimated_completion st.
Proof.
  apply (run_steps_preserve (fun a b =>
           session_id b = session_id a /\ start_time b = start_time a /\
           estimated_completion b = estimated_completion a)).
  - intros s; repeat split.
  - intros a b c (H1 & H2 & H3) (H4 & H5 & H6). repeat split; congruence.
  - apply registry_keeps_identity.
Qed.

(** The tail of both branches of [_execute_workflow]: the failed state is
    stored, shows through its [active_workflows] entry if it has one, and
    the [finally] clause evicts it. *)
Lemma finish_failed (s : WorkflowState) (o : Orchestrator) :
  status s = FAILED ->
  active_workflows (evict_if_terminal s (alias_active s (store_workflow_state s o))) =
    delete (session_id s) (active_workflows o) /\
  redis (evict_if_terminal s (alias_active s (store_workflow_state s o))) =
    <[redis_key (session_id s) := to_dict s]> (redis o).
Proof.
  intros Hst. unfold alias_active, evict_if_terminal.
  cbn [store_workflow_state active_workflows].
  destruct (active_workflows o !! session_id s) as [w|] eqn:E.
  - rewrite (bool_decide_eq_true_2 (is_Some (Some w))) by (eexists; reflexivity).
    cbn [set_active active_workflows]. rewrite lookup_insert_eq.
    rewrite (bool_decide_eq_true_2 (is_Some (Some s))) by (eexists; reflexivity).
    rewrite Hst. cbn [status_eqb orb andb del_active set_active active_workflows redis].
    split; [apply delete_insert_eq|reflexivity].
  - rewrite (bool_decide_eq_false_2 (is_Some None)) by apply is_Some_None.
    change (active_workflows (store_workflow_state s o)) with (active_workflows o). rewrite E.
    rewrite (bool_decide_eq_false_2 (is_Some None)) by apply is_Some_None.
    cbn [andb active_workflows redis].
    split; [symmetry; apply delete_id, E|reflexivity].
Qed.

Ltac finish_tail :=
  match goal with |- context [evict_if_terminal ?s (alias_active ?s (store_workflow_state ?s ?o))] =>
    let Ha := fresh "Ha" in let Hr := fresh "Hr" in
    destruct (finish_failed s o eq_refl) as [Ha Hr]; rewrite ?Ha, ?Hr
  end.

Lemma current_session_id_eq (sid : string) :
  (if String.eqb sid "" then sid else sid) = sid.
Proof. now destruct (String.eqb sid ""). Qed.

(** What [_execute_workflow] leaves behind: the run out of
    [active_workflows] and its final record in Redis. *)
Lemma execute_workflow_stored (C : Agents) (st : WorkflowState) (o : Orchestrator) :
  let r := execute_workflow C st o in
  active_workflows (snd r) !! session_id st = None /\
  redis (snd r) !! redis_key (session_id st) = Some (to_dict (fst r)) /\
  session_id (fst r) = session_id st /\ start_time (fst r) = start_time st /\
  estimated_completion (fst r) = estimated_completion st.
Proof.
  cbv zeta. unfold execute_workflow.
  pose proof (run_keeps_identity C st) as (Hs & _ & _).
  destruct (run_steps (step_registry C) st) as [fin|st' e]; cbn [step_state] in *; cbv zeta;
    cbn [fst snd]; finish_tail; orch_simpl.
  - rewrite Hs, current_session_id_eq, lookup_delete_eq, lookup_insert_eq. auto.
  - rewrite lookup_delete_eq, lookup_insert_eq. auto.
Qed.

Lemma execute_workflow_active (C : Agents) (st : WorkflowState) (o : Orchestrator) :
  active_workflows (snd (execute_workflow C st o)) =
    delete (session_id st) (active_workflows o).
Proof.
  unfold execute_workflow.
  pose proof (run_keeps_identity C st) as (Hs & _ & _).
  destruct (run_steps (step_registry C) st) as [fin|st' e]; cbn [step_state] in *; cbv zeta;
    cbn [snd]; finish_tail; orch_simpl; [|reflexivity].
  rewrite Hs, current_session_id_eq. apply delete_insert_eq.
Qed.

Lemma to_dict_set_messages (st : WorkflowState) (ms : list Message) :
  to_dict (set_messages ms st) = to_dict st.
Proof. destruct st; reflexivity. Qed.

(** X3: once a run started by [start_workflow] has finished (completed or
    failed), [get_workflow_status] for its id returns exactly the record
    [to_dict] of the final state: the run has left [active_workflows], and
    the record reloaded from Redis serialises back to the same record. *)
Theorem status_query_after_run (C : Agents) (o : Orchestrator) (sid eid : string)
    (ed prefs ui : gmap string Json) (now eta : datetime) :
  valid_datetime now = true -> valid_datetime eta = true ->
  get_workflow_status (snd (start_and_run C o sid eid ed prefs ui now eta)) sid =
    Some (to_dict (fst (start_and_run C o sid eid ed prefs ui now eta))).
Proof.
  intros Hn He. unfold start_and_run, start_workflow.
  match goal with |- context [execute_workflow C ?s ?o1] =>
    pose proof (execute_workflow_stored C s o1) as (Ha & Hr & Hs & Ht & Hc);
    destruct (execute_workflow C s o1) as [fin o']
  end.
  cbn [fst snd session_id start_time estimated_completion] in *.
  unfold get_workflow_status, get_workflow_state. rewrite Ha, Hr. cbn [obind].
  rewrite load_to_dict by (rewrite ?Ht, ?Hc; assumption).
  rewrite to_dict_set_messages. reflexivity.
Qed.

Lemma status_query_after_run_witness :
  valid_datetime t_start = true /\ valid_datetime t_eta = true /\
  get_workflow_status (snd (start_and_run agents_failing (mkOrchestrator ∅ ∅) "s1" "e1"
                              gala_event gala_prefs ∅ t_start t_eta)) "s1" =
    Some (to_dict (fst (start_and_run agents_failing (mkOrchestrator ∅ ∅) "s1" "e1"
                          gala_event gala_prefs ∅ t_start t_eta))).
Proof.
  split; [reflexivity|]. split; [reflexivity|].
  apply status_query_after_run; reflexivity.
Defined.

(** X4: after a successful cancel of a run whose state carries its id and
    valid timestamps, [get_workflow_status] for that id returns the
    record of the cancelled state (status [cancelled], current step
    ["cancelled"]), reloaded from Redis. *)
Theorem status_query_after_cancel (o : Orchestrator) (sid : string) (st : WorkflowState) :
  get_workflow_state o sid = Some st -> session_id st = sid -> status st = IN_PROGRESS ->
  valid_datetime (start_time st) = true ->
  opt_valid_datetime (estimated_completion st) = true ->
  get_workflow_status (snd (cancel_workflow o sid)) sid =
    Some (to_dict (set_current_step "cancelled" (set_status CANCELLED st))).
Proof.
  intros Hg Hsid Hst Ht He. unfold cancel_workflow. rewrite Hg, Hst. cbn [status_eqb snd].
  unfold get_workflow_status, get_workflow_state. orch_simpl.
  rewrite Hsid, lookup_delete_eq, lookup_insert_eq. cbn [obind].
  rewrite load_to_dict by (wf_setters; assumption).
  rewrite to_dict_set_messages. reflexivity.
Qed.

Lemma status_query_after_cancel_witness :
  get_workflow_state gala_orch "s1" = Some gala_state /\ session_id gala_state = "s1" /\
  status gala_state = IN_PROGRESS /\ valid_datetime (start_time gala_state) = true /\
  opt_valid_datetime (estimated_completion gala_state) = true /\
  get_workflow_status (snd (cancel_workflow gala_orch "s1")) "s1" =
    Some (to_dict (set_current_step "cancelled" (set_status CANCELLED gala_state))).
Proof.
  split; [vm_compute; reflexivity|]. do 4 (split; [reflexivity|]).
  apply status_query_after_cancel; [vm_compute| | | |]; reflexivity.
Defined.

(** ** Which steps a run completes *)

Local Open Scope list_scope.

Lemma outcome_perm (n : string) (c f c' f' : list string) :
  (c' = c ++ [n] /\ f' = f) \/ (c' = c /\ f' = f ++ [n]) ->
  c' ++ f' ≡ₚ (c ++ f) ++ [n].
Proof.
  intros [[-> ->]|[-> ->]].
  - rewrite <- !app_assoc. apply Permutation_app_head, Permutation_app_comm.
  - rewrite app_assoc. reflexivity.
Qed.

(** Each node either completes (its name appended to [completed_steps])
    or fails (appended to [failed_steps]), never both. *)
Lemma registry_outcome (C : Agents) :
  Forall (fun p => forall st,
    (completed_steps (step_state (snd p st)) = completed_steps st ++ [fst p] /\
     failed_steps (step_state (snd p st)) = failed_steps st) \/
    (completed_steps (step_state (snd p st)) = completed_steps st /\
     failed_steps (step_state (snd p st)) = failed_steps st ++ [fst p]))
    (step_registry C).
Proof.
  unfold step_registry.
  repeat (apply List.Forall_cons;
          [intros st; cbn [snd fst]; unfold_steps;
           repeat case_match; cbn [step_state]; wf_setters;
           first [left; split; reflexivity | right; split; reflexivity]|]).
  apply List.Forall_nil.
Qed.

Lemma run_steps_perm (steps : list (string * (WorkflowState -> StepResult)))
    (st : WorkflowState) :
  Forall (fun p => forall st,
    completed_steps (step_state (snd p st)) ++ failed_steps (step_state (snd p st)) ≡ₚ
    (completed_steps st ++ failed_steps st) ++ [fst p]) steps ->
  match run_steps steps st with
  | Ok fin => completed_steps fin ++ failed_steps fin ≡ₚ
                (completed_steps st ++ failed_steps st) ++ map fst steps
  | Exc _ _ => True
  end.
Proof.
  revert st. induction steps as [|[n f] rest IH]; intros st HF; cbn [run_steps].
  - rewrite app_nil_r. reflexivity.
  - inversion HF as [|? ? Hf Hrest]; subst. specialize (Hf st). cbn [snd fst] in Hf.
    destruct (f st) as [st1|st1 m]; cbn [step_state] in Hf; [|exact I].
    specialize (IH st1 Hrest). destruct (run_steps rest st1); [|exact I].
    rewrite IH, Hf. cbn [map fst]. rewrite <- app_assoc. reflexivity.
Qed.

Lemma validate_input_lists (st : WorkflowState) :
  match validate_input st with
  | Ok st1 => completed_steps st1 = completed_steps st ++ ["validate_input"] /\
              failed_steps st1 = failed_steps st /\
              generated_content st1 = generated_content st
  | Exc st1 _ => completed_steps st1 = completed_steps st /\
                 failed_steps st1 = failed_steps st ++ ["validate_input"]
  end.
Proof.
  unfold validate_input, validation_failed. cbv zeta.
  destruct (filter _ _); [|wf_setters; auto].
  destruct (negb _); wf_setters; auto.
Qed.

(** X5: every run started by [start_workflow] ends [FAILED] with
    [current_step = "error"]: either the steps all ran, each of the eight
    registered steps recorded exactly once across [completed_steps] and
    [failed_steps], and the [error_message] is the [_notify_backend] error;
    or validation failed, with [completed_steps = []] and
    [failed_steps = ["validate_input"]]. *)
Theorem run_steps_partition (C : Agents) (o : Orchestrator) (sid eid : string)
    (ed prefs ui : gmap string Json) (now eta : datetime) :
  let fin := fst (start_and_run C o sid eid ed prefs ui now eta) in
  status fin = FAILED /\ current_step fin = "error" /\
  ((error_message fin = Some notify_backend_error /\
    completed_steps fin ++ failed_steps fin ≡ₚ step_names C) \/
   (completed_steps fin = [] /\ failed_steps fin = ["validate_input"])).
Proof.
  cbv zeta. unfold start_and_run, start_workflow, execute_workflow.
  match goal with |- context [run_steps (step_registry C) ?s] =>
    pose proof (run_steps_perm (step_registry C) s) as Hp;
    pose proof (validate_input_lists s) as Hv;
    set (st0 := s) in *
  end.
  specialize (Hp ltac:(eapply Forall_impl; [apply registry_outcome|];
    intros p Hp' st; apply outcome_perm, Hp')).
  destruct (run_steps (step_registry C) st0) as [fin|st' e] eqn:E; cbv zeta; cbn [fst];
    wf_setters; (split; [reflexivity|split; [reflexivity|]]).
  - left. split; [reflexivity|]. rewrite Hp. reflexivity.
  - right. cbn [run_steps step_registry snd] in E.
    destruct (validate_input st0) as [st1|st1 m]; [discriminate E|].
    injection E as <- <-. destruct Hv as [-> ->]. split; reflexivity.
Qed.

(** ** The social captions depend on the flyer *)

Ltac step_disj :=
  unfold_steps; cbv zeta; repeat case_match; wf_setters;
  first [left; split; reflexivity | right; split; reflexivity].

Lemma outcome_mem (n x : string) (s s' : WorkflowState) :
  (completed_steps s' = completed_steps s ++ [n] /\ failed_steps s' = failed_steps s) \/
  (completed_steps s' = completed_steps s /\ failed_steps s' = failed_steps s ++ [n]) ->
  x <> n -> x ∈ completed_steps s' <-> x ∈ completed_steps s.
Proof.
  intros [[-> _]|[-> _]] Hn; [|reflexivity].
  rewrite elem_of_app, list_elem_of_singleton. intuition.
Qed.

(** The nodes after [create_social_content] record only their own names. *)
Lemma later_steps_completed (C : Agents) (s : WorkflowState) (x : string) :
  x <> "create_whatsapp_message" -> x <> "setup_google_drive" ->
  x <> "create_calendar_event" -> x <> "create_clickup_task" -> x <> "finalize_workflow" ->
  x ∈ completed_steps (finalize_workflow (create_clickup_task (create_calendar_event
        (setup_google_drive C (create_whatsapp_message C s))))) <->
  x ∈ completed_steps s.
Proof.
  intros H1 H2 H3 H4 H5.
  set (s1 := create_whatsapp_message C s). set (s2 := setup_google_drive C s1).
  set (s3 := create_calendar_event s2). set (s4 := create_clickup_task s3).
  rewrite (outcome_mem "finalize_workflow" x s4) by
    (exact H5 || (clearbody s4; step_disj)).
  rewrite (outcome_mem "create_clickup_task" x s3) by
    (exact H4 || (subst s4; clearbody s3; step_disj)).
  rewrite (outcome_mem "create_calendar_event" x s2) by
    (exact H3 || (subst s3; clearbody s2; step_disj)).
  rewrite (outcome_mem "setup_google_drive" x s1) by
    (exact H2 || (subst s2; clearbody s1; step_disj)).
  rewrite (outcome_mem "create_whatsapp_message" x s) by
    (exact H1 || (subst s1; step_disj)).
  reflexivity.
Qed.

Lemma flyer_url_outcome (C : Agents) (s : WorkflowState) :
  completed_steps (create_flyer C s) = completed_steps s ++ ["create_flyer"] \/
  (completed_steps (create_flyer C s) = completed_steps s /\
   generated_content (create_flyer C s) !! "flyer_url" = generated_content s !! "flyer_url").
Proof.
  unfold create_flyer. cbv zeta. destruct (generate_flyer _ _ _) as [r|e].
  - destruct (truthy _); wf_setters; [right | left; reflexivity].
    split; [reflexivity|]. rewrite lookup_insert_ne by discriminate. reflexivity.
  - right. wf_setters. split; reflexivity.
Qed.

Lemma social_needs_url (C : Agents) (s : WorkflowState) :
  "create_social_content" ∈ completed_steps (create_social_content C s) ->
  "create_social_content" ∈ completed_steps s \/
  truthy (dget (generated_content s) "flyer_url") = true.
Proof.
  unfold create_social_content. cbv zeta. wf_setters.
  destruct (truthy (dget (generated_content s) "flyer_url")) eqn:T; [now right|].
  cbn [negb]. wf_setters. now left.
Qed.

Lemma social_keeps_completed (C : Agents) (s : WorkflowState) (x : string) :
  x ∈ completed_steps s -> x ∈ completed_steps (create_social_content C s).
Proof.
  intros Hx. assert (
    (completed_steps (create_social_content C s) =
       completed_steps s ++ ["create_social_content"] /\
     failed_steps (create_social_content C s) = failed_steps s) \/
    (completed_steps (create_social_content C s) = completed_steps s /\
     failed_steps (create_social_content C s) =
       failed_steps s ++ ["create_social_content"])) as [[-> _]|[-> _]] by step_disj;
    [apply elem_of_app; left|]; exact Hx.
Qed.

(** X6: in a run started by [start_workflow], [create_social_content] is
    recorded as completed only when [create_flyer] is too: the captions
    need the [flyer_url] that only a successful flyer node writes. *)
Theorem social_success_needs_flyer (C : Agents) (o : Orchestrator) (sid eid : string)
    (ed prefs ui : gmap string Json) (now eta : datetime) :
  let fin := fst (start_and_run C o sid eid ed prefs ui now eta) in
  "create_social_content" ∈ completed_steps fin -> "create_flyer" ∈ completed_steps fin.
Proof.
  cbv zeta. unfold start_and_run, start_workflow, execute_workflow.
  match goal with |- context [run_steps (step_registry C) ?s] =>
    pose proof (validate_input_lists s) as Hv; set (st0 := s) in * end.
  cbn [run_steps step_registry snd].
  destruct (validate_input st0) as [st1|st1 m]; cbv zeta; cbn [fst]; wf_setters.
  - destruct Hv as (Hc & _ & Hg). cbn [completed_steps st0] in Hc.
    cbn [generated_content st0] in Hg.
    rewrite !later_steps_completed by discriminate.
    intros Hs. apply social_needs_url in Hs. apply social_keeps_completed.
    destruct (flyer_url_outcome C st1) as [Hf|[Hf Hu]].
    + rewrite Hf. apply elem_of_app. right. left.
    + exfalso. destruct Hs as [Hs|Hs].
      * rewrite Hf, Hc in Hs. apply list_elem_of_In in Hs. cbn in Hs. intuition discriminate.
      * unfold dget in Hs. rewrite Hu, Hg, lookup_empty in Hs. discriminate.
  - destruct Hv as [Hc _]. rewrite Hc. cbn. intros Hs. inversion Hs.
Qed.

Lemma social_success_needs_flyer_witness :
  "create_social_content" ∈ completed_steps (fst gala_done) /\
  "create_flyer" ∈ completed_steps (fst gala_done).
Proof.
  assert (H : "create_social_content" ∈ completed_steps (fst gala_done))
    by (apply list_elem_of_In; vm_compute; repeat (first [left; reflexivity | right])).
  split; [exact H|]. exact (social_success_needs_flyer agents_ok (mkOrchestrator ∅ ∅)
    "s1" "e1" gala_event gala_prefs ∅ t_start t_eta H).
Defined.

(** ** The workflow-update webhook *)

(** X7: the [/webhook/workflow-update] endpoint on a known session with a
    valid status value: the stored state gets the new status and current
    step; an empty [completed_steps] or [failed_steps] list (the defaults)
    keeps the old list, a non-empty one replaces it; an empty or absent
    [error_message] keeps the old one; [generated_content] is merged into
    the old content with the new values winning per key; the id is kept;
    the updated state is what [_get_workflow_state] then returns and what
    Redis holds under the state's key. *)
Theorem webhook_update_fields (o : Orchestrator) (sid stv cur : string)
    (cs fs : list string) (em : option string) (gc : option (gmap string Json))
    (st : WorkflowState) (s : WorkflowStatus) :
  get_workflow_state o sid = Some st -> parse_status stv = Some s ->
  fst (workflow_update_webhook o sid stv cur cs fs em gc) = webhook_response /\
  exists st',
    get_workflow_state (snd (workflow_update_webhook o sid stv cur cs fs em gc)) sid = Some st' /\
    redis (snd (workflow_update_webhook o sid stv cur cs fs em gc)) !! redis_key (session_id st)
      = Some (to_dict st') /\
    session_id st' = session_id st /\ status st' = s /\ current_step st' = cur /\
    completed_steps st' = (match cs with [] => completed_steps st | _ => cs end) /\
    failed_steps st' = (match fs with [] => failed_steps st | _ => fs end) /\
    error_message st' = (match em with
                         | Some m => if String.eqb m "" then error_message st else Some m
                         | None => error_message st end) /\
    (forall k, generated_content st' !! k =
       (match gc with Some g => g !! k | None => None end) ∪ generated_content st !! k).
Proof.
  intros Hg Hp. split; [reflexivity|].
  unfold workflow_update_webhook, update_workflow_progress. cbn [snd]. rewrite Hg, Hp.
  cbv zeta. eexists. split; [|split].
  - unfold get_workflow_state. cbn [set_active active_workflows].
    rewrite lookup_insert_eq. reflexivity.
  - cbn [set_active store_workflow_state redis].
    destruct gc as [g|]; [destruct (dict_truthy g)|]; destruct em as [m|];
      try destruct (String.eqb m ""); destruct fs; destruct cs; wf_setters;
      apply lookup_insert_eq.
  - destruct gc as [g|]; [destruct (dict_truthy g) eqn:Hd|]; destruct em as [m|];
      try destruct (String.eqb m ""); destruct fs; destruct cs; wf_setters;
      (split; [reflexivity|]); do 5 (split; [reflexivity|]); intros k;
      try (rewrite lookup_union; reflexivity);
      try (destruct (generated_content st !! k); reflexivity).
    all: unfold dict_truthy in Hd; apply negb_false_iff, bool_decide_eq_true in Hd;
      subst g; rewrite lookup_empty; destruct (generated_content st !! k); reflexivity.
Qed.

Lemma webhook_update_fields_witness :
  get_workflow_state gala_orch "s1" = Some gala_state /\
  parse_status "completed" = Some COMPLETED /\
  fst (workflow_update_webhook gala_orch "s1" "completed" "done" [] ["create_flyer"]
         (Some "") None) = webhook_response.
Proof.
  split; [vm_compute; reflexivity|]. split; [reflexivity|].
  apply (webhook_update_fields gala_orch "s1" "completed" "done" [] ["create_flyer"]
           (Some "") None gala_state COMPLETED); [vm_compute|]; reflexivity.
Defined.

(** X8: the webhook on an unknown session, or with a status value that is
    not a [WorkflowStatus], changes neither the active workflows nor Redis,
    and still answers with the success object. *)
Theorem webhook_ignores_bad_update (o : Orchestrator) (sid stv cur : string)
    (cs fs : list string) (em : option string) (gc : option (gmap string Json)) :
  get_workflow_state o sid = None \/ parse_status stv = None ->
  workflow_update_webhook o sid stv cur cs fs em gc = (webhook_response, o).
Proof.
  intros H. unfold workflow_update_webhook, update_workflow_progress.
  destruct (get_workflow_state o sid) as [st|]; [|reflexivity].
  destruct H as [H|H]; [discriminate H|]. rewrite H. reflexivity.
Qed.

Lemma webhook_ignores_bad_update_witness :
  (get_workflow_state gala_orch "s1" = None \/ parse_status "done" = None) /\
  workflow_update_webhook gala_orch "s1" "done" "x" ["a"] [] (Some "boom") None =
    (webhook_response, gala_orch).
Proof.
  assert (H : get_workflow_state gala_orch "s1" = None \/ parse_status "done" = None)
    by (right; reflexivity).
  split; [exact H|]. apply webhook_ignores_bad_update. exact H.
Defined.

(** ** [cleanup] *)

Lemma cancel_workflow_active (o : Orchestrator) (sid k : string) :
  active_workflows (snd (cancel_workflow o sid)) !! k =
  if bool_decide (k = sid) then active_workflows o !! k ≫= keep_unless_in_progress
  else active_workflows o !! k.
Proof.
  unfold cancel_workflow, get_workflow_state.
  case_bool_decide as Hk; [subst k|].
  - destruct (active_workflows o !! sid) as [st|] eqn:E; cbn [mbind option_bind].
    + unfold keep_unless_in_progress. destruct (status_eqb (status st) IN_PROGRESS);
        cbn [snd del_active store_workflow_state active_workflows];
        [apply lookup_delete_eq | exact E].
    + destruct (obind _ _) as [st|]; [destruct (status_eqb _ _)|];
        cbn [snd del_active store_workflow_state active_workflows];
        [rewrite lookup_delete_eq| |]; auto.
  - destruct (active_workflows o !! sid) as [st|];
      [|destruct (obind _ _) as [st|]]; try destruct (status_eqb _ _);
      cbn [snd del_active store_workflow_state active_workflows];
      try apply lookup_delete_ne; auto.
Qed.

Lemma keep_unless_in_progress_idem (x : option WorkflowState) :
  (x ≫= keep_unless_in_progress) ≫= keep_unless_in_progress = x ≫= keep_unless_in_progress.
Proof.
  destruct x as [st|]; [|reflexivity]. cbn. unfold keep_unless_in_progress.
  destruct (status_eqb (status st) IN_PROGRESS) eqn:E; cbn; [reflexivity|].
  rewrite E. reflexivity.
Qed.

Lemma cleanup_active (ks : list string) (o : Orchestrator) (k : string) :
  active_workflows (cleanup ks o) !! k =
  if bool_decide (k ∈ ks) then active_workflows o !! k ≫= keep_unless_in_progress
  else active_workflows o !! k.
Proof.
  unfold cleanup. revert o. induction ks as [|sid ks IH]; intros o; cbn [fold_left].
  - reflexivity.
  - rewrite IH, !cancel_workflow_active.
    destruct (decide (k = sid)) as [->|Hne].
    + rewrite !(bool_decide_eq_true_2 (sid = sid)) by reflexivity.
      rewrite (bool_decide_eq_true_2 (sid ∈ sid :: ks)) by (left; reflexivity).
      case_bool_decide; [apply keep_unless_in_progress_idem | reflexivity].
    + rewrite !(bool_decide_eq_false_2 (k = sid)) by exact Hne.
      replace (bool_decide (k ∈ sid :: ks)) with (bool_decide (k ∈ ks)); [reflexivity|].
      apply bool_decide_ext. rewrite elem_of_cons. tauto.
Qed.

(** X9: [cleanup] run over all keys of [active_workflows] leaves exactly the
    workflows that are not in progress: each in-progress one is cancelled
    and dropped, every other one (pending, completed, failed, ...) stays. *)
Theorem cleanup_drops_in_progress (ks : list string) (o : Orchestrator) :
  (forall k, is_Some (active_workflows o !! k) -> k ∈ ks) ->
  active_workflows (cleanup ks o) =
    filter (fun kv => status_eqb (status kv.2) IN_PROGRESS = false) (active_workflows o).
Proof.
  intros Hks. apply map_eq. intros k.
  rewrite cleanup_active, map_lookup_filter.
  case_bool_decide as Hk.
  - destruct (active_workflows o !! k) as [st|]; cbn; [|reflexivity].
    unfold keep_unless_in_progress.
    destruct (status_eqb (status st) IN_PROGRESS) eqn:E.
    + rewrite option_guard_False by (cbn; congruence). reflexivity.
    + rewrite option_guard_True by (cbn; congruence). reflexivity.
  - destruct (active_workflows o !! k) as [st|] eqn:E; [|reflexivity].
    exfalso. apply Hk, Hks. rewrite E. eexists. reflexivity.
Qed.

Lemma cleanup_drops_in_progress_witness :
  (forall k, is_Some (active_workflows gala_orch !! k) -> k ∈ ["s1"]) /\
  active_workflows (cleanup ["s1"] gala_orch) =
    filter (fun kv => status_eqb (status kv.2) IN_PROGRESS = false)
      (active_workflows gala_orch).
Proof.
  assert (H : forall k, is_Some (active_workflows gala_orch !! k) -> k ∈ ["s1"]).
  { intros k [st Hst]. destruct (decide (k = "s1")) as [->|Hne]; [left|].
    exfalso. unfold gala_orch in Hst. cbn [active_workflows store_workflow_state set_active] in Hst.
    rewrite lookup_insert_ne, lookup_empty in Hst by congruence. discriminate. }
  split; [exact H|]. apply cleanup_drops_in_progress. exact H.
Defined.

(** ** In-memory footprint of a run *)

(** X10: a run started by [start_workflow] and executed to its end leaves the
    in-memory active workflows as they were, except that its own id is no
    longer there: no other session's entry is added, changed or removed. *)
Theorem run_active_frame (C : Agents) (o : Orchestrator) (sid eid : string)
    (ed prefs ui : gmap string Json) (now eta : datetime) :
  active_workflows (snd (start_and_run C o sid eid ed prefs ui now eta)) =
    delete sid (active_workflows o).
Proof.
  unfold start_and_run, start_workflow. rewrite execute_workflow_active.
  cbn [session_id store_workflow_state set_active active_workflows].
  apply delete_insert_eq.
Qed.

(** X11: on an orchestrator with no in-memory entry for [sid], a whole run
    started under [sid] leaves [get_health_metrics] unchanged: the
    finished run, completed or failed, is evicted and so is never counted
    among [active_workflows], [completed_workflows] or [failed_workflows]. *)
Theorem health_metrics_unchanged_by_run (C : Agents) (o : Orchestrator) (sid eid : string)
    (ed prefs ui : gmap string Json) (now eta : datetime) :
  active_workflows o !! sid = None ->
  get_health_metrics (snd (start_and_run C o sid eid ed prefs ui now eta)) =
    get_health_metrics o.
Proof.
  intros H. unfold get_health_metrics, count_status.
  rewrite run_active_frame, delete_id by exact H. reflexivity.
Qed.

Lemma health_metrics_unchanged_by_run_witness :
  active_workflows (mkOrchestrator ∅ ∅) !! "s1" = None /\
  get_health_metrics (snd gala_done) = get_health_metrics (mkOrchestrator ∅ ∅).
Proof.
  split; [reflexivity|]. apply health_metrics_unchanged_by_run. reflexivity.
Defined.

(** X12: every node after [validate_input] returns normally; when its
    work fails (its agent raises or returns an error, or its own code
    raises inside its [try]) it appends its name to [failed_steps], sets
    [current_step] to its name and leaves [completed_steps], [status], the
    identifiers, inputs and timestamps unchanged. *)
Theorem best_effort_step_failure (C : Agents) (st : WorkflowState) :
  Forall (fun p : string * (WorkflowState -> StepResult) =>
    let '(name, f) := p in
    String.eqb name "validate_input" = true \/
    (step_fails C name st = true ->
     exists st', f st = Ok st' /\ failed_frame name st st'))
    (step_registry C).
Proof.
  cbn [step_registry].
  constructor; [left; reflexivity|].
  constructor.
  { right. unfold step_fails. cbn [String.eqb Ascii.eqb Bool.eqb].
    unfold create_flyer. cbn [set_current_step event_data content_preferences].
    destruct (generate_flyer C _ _) as [r|e].
    * destruct (truthy (dget r "error")); intros H; [|discriminate H].
      eexists; split; [reflexivity|]. repeat split.
    * intros _. eexists; split; [reflexivity|]. repeat split. }
  constructor.
  { right. unfold step_fails. cbn [String.eqb Ascii.eqb Bool.eqb].
    unfold create_social_content.
    cbn [set_current_step event_data content_preferences generated_content].
    destruct (truthy (dget (generated_content st) "flyer_url")); cbn [negb orb].
    * destruct (generate_content C _ _ _) as [r|e].
      -- destruct (truthy (dget r "social_media_error")); intros H; [|discriminate H].
         eexists; split; [reflexivity|]. repeat split.
      -- intros _. eexists; split; [reflexivity|]. repeat split.
    * intros _. eexists; split; [reflexivity|]. repeat split. }
  constructor.
  { right. unfold step_fails. cbn [String.eqb Ascii.eqb Bool.eqb].
    unfold create_whatsapp_message.
    cbn [set_current_step event_data content_preferences].
    destruct (generate_message C _ _) as [r|e].
    * destruct (truthy (dget r "error")); cbn [orb].
      -- intros _. eexists; split; [reflexivity|]. repeat split.
      -- destruct (slice_error (dget r "whatsapp_message_text")) eqn:Hs; intros H.
         ++ eexists; split; [reflexivity|]. repeat split.
         ++ rewrite bool_decide_eq_false_2 in H; [discriminate H|].
            intros [x Hx]; discriminate Hx.
    * intros _. eexists; split; [reflexivity|]. repeat split. }
  constructor.
  { right. unfold step_fails. cbn [String.eqb Ascii.eqb Bool.eqb].
    unfold setup_google_drive.
    cbn [set_current_step event_data generated_content].
    destruct (setup_event_folder C _ _) as [r|e].
    * destruct (truthy (dget r "error")); intros H; [|discriminate H].
      eexists; split; [reflexivity|]. repeat split.
    * intros _. eexists; split; [reflexivity|]. repeat split. }
  constructor; [right; intros H; discriminate H|].
  constructor; [right; intros H; discriminate H|].
  constructor; [right; intros H; discriminate H|].
  constructor.
Qed.

(** X13: regenerating on an existing run changes no artifact outside the
    keys owned by the selected steps ([owned_keys]); the run ends with
    [current_step = "regenerated_" + regeneration_type], status [FAILED]
    and the [_notify_backend] error as [error_message], stored in Redis
    and held in [active_workflows]. *)
Theorem regenerate_content_frame (C : Agents) (o : Orchestrator) (sid eid rt : string)
    (prefs : gmap string Json) (st : WorkflowState) :
  get_workflow_state o sid = Some st ->
  match regenerate_content C o sid eid rt prefs with
  | inl _ => False
  | inr (st', o') =>
      (forall k, k ∉ owned_keys rt ->
         generated_content st' !! k = generated_content st !! k) /\
      status st' = FAILED /\
      error_message st' = Some notify_backend_error /\
      current_step st' = "regenerated_" +:+ rt /\
      active_workflows o' !! sid = Some st' /\
      redis o' !! redis_key (session_id st') = Some (to_dict st')
  end.
Proof.
  intros Hg. unfold regenerate_content. rewrite Hg. cbv beta zeta.
  split; [|split; [reflexivity|split; [reflexivity|split; [reflexivity|split]]]].
  - intros k Hk. unfold owned_keys in Hk.
    cbn [generated_content set_error_message set_current_step set_status].
    destruct (String.eqb rt "whatsapp" || String.eqb rt "all") eqn:Ew;
      [rewrite create_whatsapp_message_frame
         by (intros Hin; apply Hk; rewrite !elem_of_app; right; right; exact Hin)|];
    (destruct (String.eqb rt "social" || String.eqb rt "all") eqn:Es;
      [rewrite create_social_content_frame
         by (intros Hin; apply Hk; rewrite !elem_of_app; right; left; exact Hin)|]);
    (destruct (String.eqb rt "flyer" || String.eqb rt "all") eqn:Ef;
      [rewrite create_flyer_frame
         by (intros Hin; apply Hk; rewrite !elem_of_app; left; exact Hin)|]);
    reflexivity.
  - cbn [set_active active_workflows store_workflow_state]. apply lookup_insert_eq.
  - cbn [set_active redis store_workflow_state]. apply lookup_insert_eq.
Qed.

Lemma regenerate_content_frame_witness :
  get_workflow_state gala_orch "s1" = Some gala_state /\
  match regenerate_content agents_ok gala_orch "s1" "e1" "social" ∅ with
  | inl _ => False
  | inr (st', o') =>
      (forall k, k ∉ owned_keys "social" ->
         generated_content st' !! k = generated_content gala_state !! k) /\
      status st' = FAILED /\
      error_message st' = Some notify_backend_error /\
      current_step st' = "regenerated_" +:+ "social" /\
      active_workflows o' !! "s1" = Some st' /\
      redis o' !! redis_key (session_id st') = Some (to_dict st')
  end.
Proof.
  split; [vm_compute; reflexivity|].
  apply regenerate_content_frame. vm_compute. reflexivity.
Defined.
